(** * QuickFeed: submission reconciliation and assignment links

    A shallow embedding of two pieces of the QuickFeed code base:

    - the Go database layer ([CreateSubmission], [GetSubmission],
      [GetLastSubmissions], [UpdateSubmissions], [UpdateReview]), written
      against GORM (jinzhu/gorm, version 1);
    - the TypeScript [CourseManager] ([fillLinks], [fillLinksGroup],
      [getStudentCourseForTeacher], [getGroupCourseForTeacher]).

    Tables are lists of rows.  The GORM calls the code makes are modelled by
    their documented behaviour: a struct used as a condition or as update
    values contributes only its non-zero fields, [First]/[Last] order by
    primary key and load the row they find into their destination. *)

From Stdlib Require Import PeanoNat NArith List String Bool Lia Permutation.
Import ListNotations.
Local Open Scope N_scope.

(** ** Protocol-buffer messages (package [ag])

    The generated message types are not part of the sources at hand; the
    records below carry the fields the code reads and writes. *)

Module Status.
(** Modelled from the spec: the [Submission_Status] enum, whose zero value
    is [NONE]. *)
Inductive t := NONE | APPROVED | REJECTED | REVISION.

Definition eqb (a b : t) : bool :=
  match a, b with
  | NONE, NONE | APPROVED, APPROVED | REJECTED, REJECTED
  | REVISION, REVISION => true
  | _, _ => false
  end.
End Status.

Module User.
(** Modelled from the spec: the [User] message, reduced to the fields the
    code reads. *)
Record t := mk { ID : N; Name : string }.
End User.

Module Group.
(** Modelled from the spec: the [Group] message. *)
Record t := mk { ID : N; Name : string; CourseID : N }.
End Group.

Module Course.
(** Modelled from the spec: the [Course] message. *)
Record t := mk { ID : N; Code : string }.
End Course.

Module Assignment.
(** Modelled from the spec: the [Assignment] message. *)
Record t := mk { ID : N; CourseID : N; Order : N }.
End Assignment.

(** ** GORM's treatment of struct fields

  A field is blank when it holds its type's zero value.  A struct given to
  [Where] yields one equality per non-blank field; a struct given to
  [Assign], [Update] or [Updates] writes only its non-blank fields. *)

Module Field.
Definition condN (q r : N) : bool := (q =? 0) || (q =? r).
Definition condS (q r : string) : bool := (q =? "")%string || (q =? r)%string.
Definition condB (q r : bool) : bool := negb q || Bool.eqb q r.
Definition condStatus (q r : Status.t) : bool :=
  Status.eqb q Status.NONE || Status.eqb q r.

Definition setN (v old : N) : N := if v =? 0 then old else v.
Definition setS (v old : string) : string :=
  if (v =? "")%string then old else v.
Definition setB (v old : bool) : bool := if v then true else old.
Definition setStatus (v old : Status.t) : Status.t :=
  match v with Status.NONE => old | _ => v end.
End Field.

Module Submission.
(** Modelled from the spec: the [Submission] message.  [ScoreObjects] and
    [BuildInfo] are the test-result payload.  The reviews of a submission
    live in their own table and are attached by [Preload]. *)
Record t := mk {
  ID : N;
  AssignmentID : N;
  UserID : N;
  GroupID : N;
  Score : N;
  ScoreObjects : string;
  BuildInfo : string;
  Released : bool;
  Status : Status.t
}.

Definition zero : t := mk 0 0 0 0 0 "" "" false Status.NONE.

Definition setID (s : t) (id : N) : t :=
  mk id (AssignmentID s) (UserID s) (GroupID s) (Score s) (ScoreObjects s)
     (BuildInfo s) (Released s) (Status s).

Definition setAssignmentID (s : t) (a : N) : t :=
  mk (ID s) a (UserID s) (GroupID s) (Score s) (ScoreObjects s)
     (BuildInfo s) (Released s) (Status s).

Definition setScore (s : t) (n : N) : t :=
  mk (ID s) (AssignmentID s) (UserID s) (GroupID s) n (ScoreObjects s)
     (BuildInfo s) (Released s) (Status s).

(** [Where(q)]: the conjunction of [column = value] over the non-blank
    fields of [q]. *)
Definition matches (q r : t) : bool :=
  Field.condN (ID q) (ID r)
  && Field.condN (AssignmentID q) (AssignmentID r)
  && Field.condN (UserID q) (UserID r)
  && Field.condN (GroupID q) (GroupID r)
  && Field.condN (Score q) (Score r)
  && Field.condS (ScoreObjects q) (ScoreObjects r)
  && Field.condS (BuildInfo q) (BuildInfo r)
  && Field.condB (Released q) (Released r)
  && Field.condStatus (Status q) (Status r).

(** [Assign(v)] / [Updates(v)] applied to a row: the non-blank fields of
    [v] replace the row's. *)
Definition assign (v r : t) : t :=
  mk (Field.setN (ID v) (ID r))
     (Field.setN (AssignmentID v) (AssignmentID r))
     (Field.setN (UserID v) (UserID r))
     (Field.setN (GroupID v) (GroupID r))
     (Field.setN (Score v) (Score r))
     (Field.setS (ScoreObjects v) (ScoreObjects r))
     (Field.setS (BuildInfo v) (BuildInfo r))
     (Field.setB (Released v) (Released r))
     (Field.setStatus (Status v) (Status r)).

(** [Model(m)]: when the primary key of [m] is set, statements built on
    the handle carry [id = m.ID]. *)
Definition primaryKey (m r : t) : bool := Field.condN (ID m) (ID r).
End Submission.

Module Review.
(** Modelled from the spec: the [Review] message. *)
Record t := mk {
  ID : N;
  SubmissionID : N;
  ReviewerID : N;
  Feedback : string;
  Review : string;
  Ready : bool;
  Score : N
}.

Definition zero : t := mk 0 0 0 "" "" false 0.

Definition matches (q r : t) : bool :=
  Field.condN (ID q) (ID r)
  && Field.condN (SubmissionID q) (SubmissionID r)
  && Field.condN (ReviewerID q) (ReviewerID r)
  && Field.condS (Feedback q) (Feedback r)
  && Field.condS (Review q) (Review r)
  && Field.condB (Ready q) (Ready r)
  && Field.condN (Score q) (Score r).

Definition assign (v r : t) : t :=
  mk (Field.setN (ID v) (ID r))
     (Field.setN (SubmissionID v) (SubmissionID r))
     (Field.setN (ReviewerID v) (ReviewerID r))
     (Field.setS (Feedback v) (Feedback r))
     (Field.setS (Review v) (Review r))
     (Field.setB (Ready v) (Ready r))
     (Field.setN (Score v) (Score r)).

Definition primaryKey (m r : t) : bool := Field.condN (ID m) (ID r).
End Review.

(** ** The database layer (Go, package [database]) *)

(** [gorm.ErrRecordNotFound] is the one error value the code names; every
    other failure of the connection is a driver error. *)
Inductive error :=
| ErrRecordNotFound
| ErrDriver (msg : string).

Inductive result (A : Type) :=
| Ok (a : A)
| Err (e : error).
Arguments Ok {A} a.
Arguments Err {A} e.

(** [GormDB]: the tables behind [db.conn]. *)
Record GormDB := mkDB {
  users : list User.t;
  groups : list Group.t;
  courses : list Course.t;
  assignments : list Assignment.t;
  submissions : list Submission.t;
  reviews : list Review.t
}.

Definition setSubmissions (db : GormDB) (tbl : list Submission.t) : GormDB :=
  mkDB (users db) (groups db) (courses db) (assignments db) tbl (reviews db).

Definition setReviews (db : GormDB) (tbl : list Review.t) : GormDB :=
  mkDB (users db) (groups db) (courses db) (assignments db) (submissions db) tbl.

(** *** Query primitives *)

(** [SELECT count( * ) FROM t WHERE p]. *)
Definition Count {A : Type} (p : A -> bool) (tbl : list A) : N :=
  N.of_nat (List.length (filter p tbl)).

(** [UPDATE t SET attrs WHERE cond]. *)
Definition Updates {A : Type} (cond : A -> bool) (attrs : A -> A)
    (tbl : list A) : list A :=
  map (fun r => if cond r then attrs r else r) tbl.

(** [ORDER BY id ASC LIMIT 1] over the rows a condition selects. *)
Definition pickFirst (acc : option Submission.t) (r : Submission.t)
    : option Submission.t :=
  match acc with
  | None => Some r
  | Some a => if Submission.ID r <? Submission.ID a then Some r else Some a
  end.

(** [ORDER BY id DESC LIMIT 1] over the rows a condition selects. *)
Definition pickLast (acc : option Submission.t) (r : Submission.t)
    : option Submission.t :=
  match acc with
  | None => Some r
  | Some a => if Submission.ID a <=? Submission.ID r then Some r else Some a
  end.

(** [Where(q).First(&out)] on the submissions table. *)
Definition First (q : Submission.t) (tbl : list Submission.t)
    : option Submission.t :=
  fold_left pickFirst (filter (Submission.matches q) tbl) None.

(** [Where(q).Last(&out)] on the submissions table. *)
Definition Last (q : Submission.t) (tbl : list Submission.t)
    : option Submission.t :=
  fold_left pickLast (filter (Submission.matches q) tbl) None.

(** The identifier an auto-increment column hands out next. *)
Definition nextID (tbl : list Submission.t) : N :=
  1 + fold_right (fun r m => N.max (Submission.ID r) m) 0 tbl.

(** [Create(&row)]: a row whose primary key is blank receives the next
    identifier; a row that brings its own key is refused when the key is
    taken. *)
Definition Create (tbl : list Submission.t) (row : Submission.t)
    : list Submission.t * Submission.t * option error :=
  if Submission.ID row =? 0 then
    let row' := Submission.setID row (nextID tbl) in
    (tbl ++ [row'], row', None)
  else if existsb (fun r => Submission.ID r =? Submission.ID row) tbl then
    (tbl, row, Some (ErrDriver "UNIQUE constraint failed: submissions.id"))
  else (tbl ++ [row], row, None).

(** [Where(query).Assign(attrs).FirstOrCreate(&out)].  When a row is found,
    it is loaded into [out], the non-blank fields of [attrs] are set on
    [out] and written with [UPDATE ... WHERE id = out.ID AND query]; when
    none is found, [out] is initialised from the non-blank fields of
    [query], then of [attrs], and inserted. *)
Definition FirstOrCreate (tbl : list Submission.t)
    (query attrs : Submission.t)
    : list Submission.t * Submission.t * option error :=
  match First query tbl with
  | Some found =>
      let out := Submission.assign attrs found in
      (Updates (fun r => Submission.primaryKey out r
                         && Submission.matches query r)
               (Submission.assign attrs) tbl,
       out, None)
  | None =>
      Create tbl (Submission.assign attrs (Submission.assign query
                                                             Submission.zero))
  end.

(** The handle [m] that [db.conn.First(&pb.User{ID: id})], or the same call
    on [pb.Group], returns: the model it was built on and the error of the
    query.  A later call on the handle keeps that error. *)
Inductive Model :=
| UserModel (id : N)
| GroupModel (id : N).

Record Handle := mkHandle { Value : Model; Error : option error }.

Definition FirstUser (db : GormDB) (id : N) : Handle :=
  mkHandle (UserModel id)
    (if existsb (fun u => User.ID u =? id) (users db) then None
     else Some ErrRecordNotFound).

Definition FirstGroup (db : GormDB) (id : N) : Handle :=
  mkHandle (GroupModel id)
    (if existsb (fun g => Group.ID g =? id) (groups db) then None
     else Some ErrRecordNotFound).

(** [m.Count(&n)]: counts the rows carrying the model's primary key. *)
Definition CountModel (db : GormDB) (m : Handle) : N * option error :=
  (match Value m with
   | UserModel id => Count (fun u => User.ID u =? id) (users db)
   | GroupModel id => Count (fun g => Group.ID g =? id) (groups db)
   end,
   Error m).

(** *** Submissions *)

(** The part of [CreateSubmission] after its checks: the [query] struct,
    [Last], [FirstOrCreate], the forced write of a zero score and the
    identifier handed back to the caller.

    [db.conn.Last(query, query)] uses [query] both as the condition and as
    the destination: when a row is found, [query] holds that row from then
    on, and both later [Where(query)] clauses are built from it.  An error
    of [Last] other than not-found does not arise on these tables. *)
Definition writeSubmission (db : GormDB) (submission : Submission.t)
    : GormDB * Submission.t * option error :=
  let query0 :=
    Submission.mk 0 (Submission.AssignmentID submission)
      (Submission.UserID submission) (Submission.GroupID submission)
      0 "" "" false Status.NONE in
  let query :=
    match Last query0 (submissions db) with
    | Some row => row
    | None => query0
    end in
  let '(tbl, labSubmission, err) :=
    FirstOrCreate (submissions db) query submission in
  let '(tbl, err) :=
    if Submission.Score submission =? 0 then
      (Updates (fun r => Submission.primaryKey submission r
                         && Submission.matches query r)
               (fun r => Submission.setScore r 0) tbl,
       None)
    else (tbl, err) in
  (setSubmissions db tbl,
   Submission.setID submission (Submission.ID labSubmission),
   err).

(** [CreateSubmission] returns the tables after the call, the caller's
    submission (whose [ID] the function sets) and the error. *)
Definition CreateSubmission (db : GormDB) (submission : Submission.t)
    : GormDB * Submission.t * option error :=
  if Submission.AssignmentID submission <? 1 then
    (db, submission, Some ErrRecordNotFound)
  else
    let owner :=
      if (0 <? Submission.UserID submission)
         && (0 <? Submission.GroupID submission) then None
      else if 0 <? Submission.UserID submission then
        Some (FirstUser db (Submission.UserID submission))
      else if 0 <? Submission.GroupID submission then
        Some (FirstGroup db (Submission.GroupID submission))
      else None in
    match owner with
    | None => (db, submission, Some ErrRecordNotFound)
    | Some m =>
        let '(group, err) := CountModel db m in
        match err with
        | Some e => (db, submission, Some e)
        | None =>
            let assignment :=
              Count (fun a => Assignment.ID a
                              =? Submission.AssignmentID submission)
                    (assignments db) in
            if negb (assignment + group =? 2) then
              (db, submission, Some ErrRecordNotFound)
            else writeSubmission db submission
        end
    end.

(** [GetSubmission]: the last row the query selects, with its reviews
    preloaded. *)
Definition GetSubmission (db : GormDB) (query : Submission.t)
    : result (Submission.t * list Review.t) :=
  match Last query (submissions db) with
  | Some submission =>
      Ok (submission,
          filter (fun r => Review.SubmissionID r =? Submission.ID submission)
                 (reviews db))
  | None => Err ErrRecordNotFound
  end.

Section LastSubmissions.

(** The loop of [GetLastSubmissions] over the method it calls for each
    assignment, so that a failing connection is covered as well. *)
Variable getSubmission :
  Submission.t -> result (Submission.t * list Review.t).

Fixpoint lastSubmissionsLoop (courseAssignments : list Assignment.t)
    (query : Submission.t) (latestSubs : list (Submission.t * list Review.t))
    : result (list (Submission.t * list Review.t)) :=
  match courseAssignments with
  | [] => Ok latestSubs
  | a :: rest =>
      let query := Submission.setAssignmentID query (Assignment.ID a) in
      match getSubmission query with
      | Err ErrRecordNotFound => lastSubmissionsLoop rest query latestSubs
      | Err e => Err e
      | Ok temp => lastSubmissionsLoop rest query (latestSubs ++ [temp])
      end
  end.

End LastSubmissions.

(** [Preload("Assignments").First(&course, courseID)]. *)
Definition FirstCourse (db : GormDB) (courseID : N)
    : result (Course.t * list Assignment.t) :=
  match find (fun c => Course.ID c =? courseID) (courses db) with
  | Some course =>
      Ok (course,
          filter (fun a => Assignment.CourseID a =? Course.ID course)
                 (assignments db))
  | None => Err ErrRecordNotFound
  end.

Definition GetLastSubmissions (db : GormDB) (courseID : N)
    (query : Submission.t) : result (list (Submission.t * list Review.t)) :=
  match FirstCourse db courseID with
  | Err e => Err e
  | Ok (_, courseAssignments) =>
      lastSubmissionsLoop (GetSubmission db) courseAssignments query []
  end.

(** [UpdateSubmissions]: [Model(query)] adds the primary key of [query]
    when it is set; the two string conditions compare whatever values the
    query holds; the values are the struct
    [pb.Submission{Status: ..., Released: ...}]. *)
Definition UpdateSubmissions (db : GormDB) (courseID : N)
    (query : Submission.t) : GormDB * option error :=
  (setSubmissions db
     (Updates
        (fun r => Submission.primaryKey query r
                  && (Submission.AssignmentID r
                      =? Submission.AssignmentID query)
                  && (Submission.Score query <=? Submission.Score r))
        (Submission.assign
           (Submission.mk 0 0 0 0 0 "" "" (Submission.Released query)
              (Submission.Status query)))
        (submissions db)),
   None).

(** The call the specification names [approveByThreshold]: the query
    carries the assignment, the threshold, the status and the released
    flag, and nothing else. *)
Definition approveByThreshold (db : GormDB) (courseID assignmentID
    minimumScore : N) (newStatus : Status.t) (released : bool)
    : GormDB * option error :=
  UpdateSubmissions db courseID
    (Submission.mk 0 assignmentID 0 0 minimumScore "" "" released newStatus).

(** *** Reviews *)

Definition UpdateReview (db : GormDB) (query : Review.t)
    : GormDB * option error :=
  (setReviews db
     (Updates
        (fun r => Review.primaryKey query r
                  && Review.matches
                       (Review.mk (Review.ID query)
                          (Review.SubmissionID query)
                          (Review.ReviewerID query) "" "" false 0) r)
        (Review.assign
           (Review.mk 0 0 0 (Review.Feedback query) (Review.Review query)
              (Review.Ready query) (Review.Score query)))
        (reviews db)),
   None).

(** *** The remaining submission and review operations *)

(** [Save(&value)]: a value without primary key is inserted; otherwise
    every column of the row with that key is written, zero values
    included, and when no row has the key the value is inserted under
    it. *)
Definition Save (tbl : list Submission.t) (value : Submission.t)
    : list Submission.t * Submission.t * option error :=
  if Submission.ID value =? 0 then Create tbl value
  else if existsb (fun r => Submission.ID r =? Submission.ID value) tbl then
    (Updates (fun r => Submission.ID r =? Submission.ID value)
             (fun _ => value) tbl,
     value, None)
  else Create tbl value.

(** [UpdateSubmission] returns the tables, the caller's submission (an
    insert sets its [ID]) and the error. *)
Definition UpdateSubmission (db : GormDB) (query : Submission.t)
    : GormDB * Submission.t * option error :=
  let '(tbl, query, err) := Save (submissions db) query in
  (setSubmissions db tbl, query, err).

Definition setReviewID (r : Review.t) (id : N) : Review.t :=
  Review.mk id (Review.SubmissionID r) (Review.ReviewerID r)
    (Review.Feedback r) (Review.Review r) (Review.Ready r) (Review.Score r).

Definition nextReviewID (tbl : list Review.t) : N :=
  1 + fold_right (fun r m => N.max (Review.ID r) m) 0 tbl.

(** [CreateReview]: [Create(query)] on the reviews table; the store assigns
    the identifier of a review that brings none and sets it on the
    caller's review. *)
Definition CreateReview (db : GormDB) (query : Review.t)
    : GormDB * Review.t * option error :=
  if Review.ID query =? 0 then
    let row := setReviewID query (nextReviewID (reviews db)) in
    (setReviews db (reviews db ++ [row]), row, None)
  else if existsb (fun r => Review.ID r =? Review.ID query) (reviews db) then
    (db, query, Some (ErrDriver "UNIQUE constraint failed: reviews.id"))
  else (setReviews db (reviews db ++ [query]), query, None).

(** [DeleteReview]: [Delete(&pb.Review{}, &query)] removes every row the
    non-blank fields of the query select. *)
Definition DeleteReview (db : GormDB) (query : Review.t)
    : GormDB * option error :=
  (setReviews db
     (filter (fun r => negb (Review.matches query r)) (reviews db)),
   None).

(** *** The operations over the store calls they make

    Every call on [db.conn] can report an error of the driver.  To follow
    the error branches of the code, the two functions that make several
    calls are given once more over the calls themselves, each call
    returning what the statement yields together with the error it
    reports. *)




(** [GetLastSubmissions] over its two store calls: the course with its
    assignments preloaded, and [GetSubmission]. *)
Definition GetLastSubmissionsWith
    (firstCourse : N -> result (Course.t * list Assignment.t))
    (getSubmission : Submission.t -> result (Submission.t * list Review.t))
    (courseID : N) (query : Submission.t)
    : result (list (Submission.t * list Review.t)) :=
  match firstCourse courseID with
  | Err e => Err e
  | Ok (_, courseAssignments) =>
      lastSubmissionsLoop getSubmission courseAssignments query []
  end.

(** ** The course manager (TypeScript, [CourseManager.ts]) *)

Module Enrollment.
(** Modelled from the spec: the [Enrollment] message, with the fields the
    manager sets.  [new Enrollment()] is [zero]. *)
Record t := mk {
  userid : N;
  user : option User.t;
  courseid : N;
  course : option Course.t;
  groupid : N;
  group : option Group.t;
  status : N
}.

Definition zero : t := mk 0 None 0 None 0 None 0.
End Enrollment.

Module ISubmission.
(** Modelled from the spec: the [ISubmission] model the provider returns. *)
Record t := mk {
  id : N;
  userid : N;
  groupid : N;
  assignmentid : N;
  score : N
}.
End ISubmission.

Module IUserRelation.
Record t := mk { user : User.t; link : Enrollment.t }.
End IUserRelation.

Module IStudentSubmission.
(** An element of [IAssignmentLink.assignments]; an [undefined] [latest]
    is [None]. *)
Record t := mk {
  assignment : Assignment.t;
  latest : option ISubmission.t;
  authorName : string
}.
End IStudentSubmission.

Module IAssignmentLink.
(** [link] is optional because [fillLinks] tests it for falsiness. *)
Record t := mk {
  link : option Enrollment.t;
  assignments : list IStudentSubmission.t;
  course : Course.t
}.

(** [studentCourse.assignments.push(x)]. *)
Definition push (l : t) (x : IStudentSubmission.t) : t :=
  mk (link l) (assignments l ++ [x]) (course l).
End IAssignmentLink.

(** The part of [ICourseProvider] the link builders call. *)
Record ICourseProvider := mkProvider {
  provider_getAssignments : N -> list Assignment.t;
  provider_getAllLabInfos : N -> N -> list ISubmission.t;
  provider_getAllGroupLabInfos : N -> N -> list ISubmission.t
}.

(** Calls that reach the provider, in the order they are awaited. *)
Inductive Call :=
| CallGetAssignments (courseID : N)
| CallGetAllLabInfos (courseID userID : N)
| CallGetAllGroupLabInfos (courseID groupID : N).

(** An [async] method: it extends the log of provider calls and resolves
    to a value. *)
Definition Promise (A : Type) : Type := list Call -> A * list Call.

Definition resolve {A : Type} (a : A) : Promise A := fun log => (a, log).

Definition await {A B : Type} (p : Promise A) (k : A -> Promise B)
    : Promise B :=
  fun log => let '(a, log') := p log in k a log'.

Notation "x <- p ;; k" := (await p (fun x => k))
  (at level 61, p at next level, right associativity).

Definition run {A : Type} (p : Promise A) : A * list Call := p [].

Definition isCallGetAllLabInfos (c : Call) : bool :=
  match c with
  | CallGetAllLabInfos _ _ | CallGetAllGroupLabInfos _ _ => true
  | CallGetAssignments _ => false
  end.

Section CourseManager.

Variable courseProvider : ICourseProvider.

Definition getAssignments (courseID : N) : Promise (list Assignment.t) :=
  fun log => (provider_getAssignments courseProvider courseID,
              log ++ [CallGetAssignments courseID]).

Definition getAllLabInfos (courseID userID : N)
    : Promise (list ISubmission.t) :=
  fun log => (provider_getAllLabInfos courseProvider courseID userID,
              log ++ [CallGetAllLabInfos courseID userID]).

Definition getAllGroupLabInfos (courseID groupID : N)
    : Promise (list ISubmission.t) :=
  fun log => (provider_getAllGroupLabInfos courseProvider courseID groupID,
              log ++ [CallGetAllGroupLabInfos courseID groupID]).

(** The body of the [for (const a of assignments)] loop shared by both
    fillers: [submissions.find(...)] keeps the first element of the batch
    whose [assignmentid] is the assignment's. *)
Definition pairAssignment (submissions : list ISubmission.t)
    (authorName : string) (l : IAssignmentLink.t) (a : Assignment.t)
    : IAssignmentLink.t :=
  let submission :=
    find (fun sub => ISubmission.assignmentid sub =? Assignment.ID a)
         submissions in
  IAssignmentLink.push l (IStudentSubmission.mk a submission authorName).

(** [fillLinks] resolves to the link object it was given, after its
    pushes.  An omitted [assignments] argument is [None]; an empty array is
    truthy, so [Some []] fetches nothing. *)
Definition fillLinks (student : User.t) (studentCourse : IAssignmentLink.t)
    (assignments : option (list Assignment.t)) : Promise IAssignmentLink.t :=
  match IAssignmentLink.link studentCourse with
  | None => resolve studentCourse
  | Some _ =>
      assignments <-
        match assignments with
        | None => getAssignments
                    (Course.ID (IAssignmentLink.course studentCourse))
        | Some l => resolve l
        end ;;
      if (0 <? List.length assignments)%nat then
        submissions <-
          getAllLabInfos (Course.ID (IAssignmentLink.course studentCourse))
                         (User.ID student) ;;
        resolve (fold_left (pairAssignment submissions (User.Name student))
                           assignments studentCourse)
      else resolve studentCourse
  end.

Definition fillLinksGroup (group : Group.t) (groupCourse : IAssignmentLink.t)
    (assignments : option (list Assignment.t)) : Promise IAssignmentLink.t :=
  match IAssignmentLink.link groupCourse with
  | None => resolve groupCourse
  | Some _ =>
      assignments <-
        match assignments with
        | None => getAssignments
                    (Course.ID (IAssignmentLink.course groupCourse))
        | Some l => resolve l
        end ;;
      if (0 <? List.length assignments)%nat then
        submissions <-
          getAllGroupLabInfos
            (Course.ID (IAssignmentLink.course groupCourse))
            (Group.ID group) ;;
        resolve (fold_left (pairAssignment submissions (Group.Name group))
                           assignments groupCourse)
      else resolve groupCourse
  end.

Definition getStudentCourseForTeacher (student : IUserRelation.t)
    (course : Course.t) (assignments : list Assignment.t)
    : Promise (option IAssignmentLink.t) :=
  let enrol :=
    Enrollment.mk (User.ID (IUserRelation.user student))
      (Some (IUserRelation.user student)) (Course.ID course) (Some course)
      0 None (Enrollment.status (IUserRelation.link student)) in
  let userCourse := IAssignmentLink.mk (Some enrol) [] course in
  userCourse <- fillLinks (IUserRelation.user student) userCourse
                          (Some assignments) ;;
  resolve (Some userCourse).

Definition getGroupCourseForTeacher (group : Group.t) (course : Course.t)
    (assignments : list Assignment.t) : Promise (option IAssignmentLink.t) :=
  if Group.CourseID group =? Course.ID course then
    let enrol :=
      Enrollment.mk 0 None (Course.ID course) None (Group.ID group)
        (Some group) 0 in
    let groupCourse := IAssignmentLink.mk (Some enrol) [] course in
    groupCourse <- fillLinksGroup group groupCourse (Some assignments) ;;
    resolve (Some groupCourse)
  else resolve None.

Definition getGroupCourse (group : Group.t) (course : Course.t)
    : Promise (option IAssignmentLink.t) :=
  if Group.CourseID group =? Course.ID course then
    let enrol :=
      Enrollment.mk 0 None (Course.ID course) None (Group.ID group)
        (Some group) 0 in
    let groupCourse := IAssignmentLink.mk (Some enrol) [] course in
    groupCourse <- fillLinksGroup group groupCourse None ;;
    resolve (Some groupCourse)
  else resolve None.

End CourseManager.

(** *** Enrollments *)

(** The enrollment queries of [ICourseProvider]; an omitted optional
    argument is [None]. *)
Record IEnrollmentProvider := mkEnrollmentProvider {
  provider_getCoursesFor : User.t -> option (list N) -> list Enrollment.t;
  provider_getUsersForCourse :
    Course.t -> option bool -> option (list N) -> list Enrollment.t
}.

(** [ele.setCourseid(id)]. *)
Definition setCourseid (e : Enrollment.t) (id : N) : Enrollment.t :=
  Enrollment.mk (Enrollment.userid e) (Enrollment.user e) id
    (Enrollment.course e) (Enrollment.groupid e) (Enrollment.group e)
    (Enrollment.status e).

Section CourseManagerEnrollments.

Variable courseProvider : ICourseProvider.
Variable enrollmentProvider : IEnrollmentProvider.

(** The link an enrollment with a course gives rise to, before it is
    filled. *)
Definition emptyLink (ele : Enrollment.t) : list IAssignmentLink.t :=
  match Enrollment.course ele with
  | Some crs => [IAssignmentLink.mk (Some ele) [] crs]
  | None => []
  end.

(** The log keeps the calls that fetch assignments and submissions; the
    enrollment queries resolve without an entry. *)
Definition getCoursesWithState (user : User.t)
    : Promise (list IAssignmentLink.t) :=
  let userCourses := provider_getCoursesFor enrollmentProvider user None in
  resolve (flat_map emptyLink userCourses).

Definition getCoursesFor (user : User.t) (state : option (list N))
    : Promise (list Course.t) :=
  let enrolList := provider_getCoursesFor enrollmentProvider user state in
  resolve (flat_map (fun ele => match Enrollment.course ele with
                                | Some crs => [crs]
                                | None => []
                                end) enrolList).

(** The loop [for (const link of links) await this.fillLinks(student, link)]. *)
Fixpoint fillEach (student : User.t) (links : list IAssignmentLink.t)
    : Promise (list IAssignmentLink.t) :=
  match links with
  | [] => resolve []
  | link :: rest =>
      link <- fillLinks courseProvider student link None ;;
      rest <- fillEach student rest ;;
      resolve (link :: rest)
  end.

Definition getStudentCourses (student : User.t) (state : option (list N))
    : Promise (list IAssignmentLink.t) :=
  let enrols := provider_getCoursesFor enrollmentProvider student state in
  fillEach student (flat_map emptyLink enrols).

Definition getUsersForCourse (course : Course.t)
    (noGroupMemebers : option bool) (state : option (list N))
    : Promise (list IUserRelation.t) :=
  let enrolls :=
    provider_getUsersForCourse enrollmentProvider course noGroupMemebers
      state in
  resolve (flat_map (fun ele => match Enrollment.user ele with
                                | Some usr =>
                                    [IUserRelation.mk usr
                                       (setCourseid ele (Course.ID course))]
                                | None => []
                                end) enrolls).

End CourseManagerEnrollments.

(** ** Vocabulary of the statements *)

(** The reference shapes [CreateSubmission] refuses before it queries. *)
Definition invalidReference (s : Submission.t) : Prop :=
  Submission.AssignmentID s = 0
  \/ (0 < Submission.UserID s /\ 0 < Submission.GroupID s)
  \/ (Submission.UserID s = 0 /\ Submission.GroupID s = 0).

(** The shape it accepts: an assignment and exactly one owner. *)
Definition wellShaped (s : Submission.t) : Prop :=
  1 <= Submission.AssignmentID s
  /\ ((0 < Submission.UserID s /\ Submission.GroupID s = 0)
      \/ (Submission.UserID s = 0 /\ 0 < Submission.GroupID s)).

(** What the two existence checks count. *)
Definition ownerCount (db : GormDB) (s : Submission.t) : N :=
  if 0 <? Submission.UserID s then
    Count (fun u => User.ID u =? Submission.UserID s) (users db)
  else Count (fun g => Group.ID g =? Submission.GroupID s) (groups db).

Definition assignmentCount (db : GormDB) (s : Submission.t) : N :=
  Count (fun a => Assignment.ID a =? Submission.AssignmentID s)
        (assignments db).

(** Identifiers are primary keys: no two rows of a table share one. *)
Definition primaryKeys (db : GormDB) : Prop :=
  NoDup (map User.ID (users db))
  /\ NoDup (map Group.ID (groups db))
  /\ NoDup (map Assignment.ID (assignments db)).

(** Both checks find their row. *)
Definition referencesExist (db : GormDB) (s : Submission.t) : Prop :=
  ownerCount db s = 1 /\ assignmentCount db s = 1.

(** The query [CreateSubmission] builds from the incoming submission: the
    (assignment, owner) pair. *)
Definition key (s : Submission.t) : Submission.t :=
  Submission.mk 0 (Submission.AssignmentID s) (Submission.UserID s)
    (Submission.GroupID s) 0 "" "" false Status.NONE.

(** The stored rows of the submission's (assignment, owner) pair. *)
Definition rowsFor (db : GormDB) (s : Submission.t) : list Submission.t :=
  filter (Submission.matches (key s)) (submissions db).

(** The incoming submission carries no identifier, or one no row has. *)
Definition identifierAvailable (db : GormDB) (s : Submission.t) : Prop :=
  Submission.ID s = 0
  \/ existsb (fun r => Submission.ID r =? Submission.ID s) (submissions db)
     = false.

(** An error of a kind of its own, as the specification words the outcome
    for an invalid reference: the call fails, the error is not the one
    returned for a missing row, and nothing is written. *)
Definition failsWithInvalidReference (db : GormDB) (s : Submission.t)
    : Prop :=
  exists e, CreateSubmission db s = (db, s, Some e)
            /\ e <> ErrRecordNotFound.

(** The rows [approveByThreshold] selects. *)
Definition atOrAbove (assignmentID minimumScore : N) (r : Submission.t)
    : bool :=
  (Submission.AssignmentID r =? assignmentID)
  && (minimumScore <=? Submission.Score r).

Definition withStatusReleased (r : Submission.t) (st : Status.t)
    (rel : bool) : Submission.t :=
  Submission.mk (Submission.ID r) (Submission.AssignmentID r)
    (Submission.UserID r) (Submission.GroupID r) (Submission.Score r)
    (Submission.ScoreObjects r) (Submission.BuildInfo r) rel st.

(** Bulk approval as the specification words it: every selected row
    receives the given status and the given released flag, every other row
    and every other field stays. *)
Definition approvedAsWorded (db : GormDB) (courseID assignmentID
    minimumScore : N) (newStatus : Status.t) (released : bool) : Prop :=
  submissions
    (fst (approveByThreshold db courseID assignmentID minimumScore
            newStatus released))
  = map (fun r => if atOrAbove assignmentID minimumScore r
                  then withStatusReleased r newStatus released else r)
        (submissions db).

(** A stored review agrees with the query on all three identifying
    fields. *)
Definition sameReview (q r : Review.t) : bool :=
  (Review.ID r =? Review.ID q)
  && (Review.SubmissionID r =? Review.SubmissionID q)
  && (Review.ReviewerID r =? Review.ReviewerID q).

(** The rows the statement of [UpdateReview] selects: each identifying
    field of the query that is set must agree. *)
Definition keysAgree (q r : Review.t) : bool :=
  Field.condN (Review.ID q) (Review.ID r)
  && Field.condN (Review.SubmissionID q) (Review.SubmissionID r)
  && Field.condN (Review.ReviewerID q) (Review.ReviewerID r).

(** The no-op part of the specification's wording: without a row that
    agrees on all three fields, nothing changes. *)
Definition noOpWithoutMatch (db : GormDB) (q : Review.t) : Prop :=
  (forall r, In r (reviews db) -> sameReview q r = false) ->
  fst (UpdateReview db q) = db.

(** The call [GetLastSubmissions] makes for one assignment, with the query
    as the loop has set it. *)
Definition lookupFor
    (getSubmission : Submission.t -> result (Submission.t * list Review.t))
    (q : Submission.t) (a : Assignment.t)
    : result (Submission.t * list Review.t) :=
  getSubmission (Submission.setAssignmentID q (Assignment.ID a)).

(** What one assignment contributes: its submission, or nothing. *)
Definition found
    (getSubmission : Submission.t -> result (Submission.t * list Review.t))
    (q : Submission.t) (a : Assignment.t)
    : list (Submission.t * list Review.t) :=
  match lookupFor getSubmission q a with
  | Ok t => [t]
  | Err _ => []
  end.

(** The error of a lookup, when it is one other than not-found. *)
Definition aborts
    (getSubmission : Submission.t -> result (Submission.t * list Review.t))
    (q : Submission.t) (a : Assignment.t) : option error :=
  match lookupFor getSubmission q a with
  | Err ErrRecordNotFound => None
  | Err e => Some e
  | Ok _ => None
  end.


(** The entry the fillers push for one assignment. *)
Definition pairing (submissions : list ISubmission.t) (authorName : string)
    (a : Assignment.t) : IStudentSubmission.t :=
  IStudentSubmission.mk a
    (find (fun sub => ISubmission.assignmentid sub =? Assignment.ID a)
          submissions)
    authorName.

(** Every stored submission has an identifier. *)
Definition identifiersSet (db : GormDB) : Prop :=
  Forall (fun r => Submission.ID r <> 0) (submissions db).

(** The owner filter of a submission: its user and group references and
    nothing else. *)
Definition ownerQuery (s : Submission.t) : Submission.t :=
  Submission.mk 0 0 (Submission.UserID s) (Submission.GroupID s) 0 "" ""
    false Status.NONE.

(** Identifiers that can serve as primary keys: pairwise distinct and
    set. *)
Definition keysOK (ids : list N) : Prop := NoDup ids /\ ~ In 0 ids.

Definition storeKeys (db : GormDB) : Prop :=
  keysOK (map Submission.ID (submissions db))
  /\ keysOK (map Review.ID (reviews db)).

(** The error a refused insert into the submissions table reports. *)
Definition duplicateSubmission : error :=
  ErrDriver "UNIQUE constraint failed: submissions.id".

(** A column of identifiers after a write that inserts at most one row: it
    is as before, or one fresh identifier has been appended. *)
Definition grownBy (ids ids' : list N) : Prop :=
  ids' = ids \/ exists i, ids' = ids ++ [i] /\ i <> 0 /\ ~ In i ids.

(** The query that selects by identifier alone. *)
Definition byID (id : N) : Submission.t :=
  Submission.setID Submission.zero id.

(** What [UpdateSubmissions] may do to one row, whatever the query: the
    identifier, the references, the score and the test results stay, a
    released row stays released, the status stays or becomes the query's,
    and a row outside the selection is left as it is. *)
Definition updatedRow (q r r' : Submission.t) : Prop :=
  Submission.ID r' = Submission.ID r
  /\ Submission.AssignmentID r' = Submission.AssignmentID r
  /\ Submission.UserID r' = Submission.UserID r
  /\ Submission.GroupID r' = Submission.GroupID r
  /\ Submission.Score r' = Submission.Score r
  /\ Submission.ScoreObjects r' = Submission.ScoreObjects r
  /\ Submission.BuildInfo r' = Submission.BuildInfo r
  /\ (Submission.Released r = true -> Submission.Released r' = true)
  /\ (Submission.Status r' = Submission.Status r
      \/ Submission.Status r' = Submission.Status q)
  /\ ((Submission.ID q <> 0 /\ Submission.ID r <> Submission.ID q)
      \/ Submission.AssignmentID r <> Submission.AssignmentID q
      \/ Submission.Score r < Submission.Score q ->
      r' = r).

(** The review carries no identifier, or one no stored review has. *)
Definition reviewAvailable (db : GormDB) (q : Review.t) : Prop :=
  Review.ID q = 0
  \/ (Review.ID q <> 0
      /\ existsb (fun r => Review.ID r =? Review.ID q) (reviews db) = false).

(** The query that selects the reviews of one submission. *)
Definition reviewsOf (submissionID : N) : Review.t :=
  Review.mk 0 submissionID 0 "" "" false 0.

(** The content fields of a review, as [UpdateReview] passes them on. *)
Definition content (q : Review.t) : Review.t :=
  Review.mk 0 0 0 (Review.Feedback q) (Review.Review q) (Review.Ready q)
    (Review.Score q).

(** The provider calls one filled link costs: the course's assignments,
    and the student's submissions when there are assignments. *)
Definition linkCalls (provider : ICourseProvider) (userID : N)
    (crs : Course.t) : list Call :=
  CallGetAssignments (Course.ID crs)
  :: match provider_getAssignments provider (Course.ID crs) with
     | [] => []
     | _ :: _ => [CallGetAllLabInfos (Course.ID crs) userID]
     end.

(** A link without its entries. *)
Definition unfilled (l : IAssignmentLink.t) : IAssignmentLink.t :=
  IAssignmentLink.mk (IAssignmentLink.link l) [] (IAssignmentLink.course l).

(** An entry pairs its assignment with a submission of that assignment
    from the batch, or with none when the batch holds none. *)
Definition soundEntry (submissions : list ISubmission.t)
    (authorName : string) (e : IStudentSubmission.t) : Prop :=
  IStudentSubmission.authorName e = authorName
  /\ match IStudentSubmission.latest e with
     | Some sub =>
         In sub submissions
         /\ ISubmission.assignmentid sub
            = Assignment.ID (IStudentSubmission.assignment e)
     | None =>
         forall sub, In sub submissions ->
                     ISubmission.assignmentid sub
                     <> Assignment.ID (IStudentSubmission.assignment e)
     end.

(** A link after [fillLinks] without an assignment list. *)
Definition filledLink (provider : ICourseProvider) (student : User.t)
    (l : IAssignmentLink.t) : IAssignmentLink.t :=
  IAssignmentLink.mk (IAssignmentLink.link l)
    (IAssignmentLink.assignments l
     ++ map (pairing
               (provider_getAllLabInfos provider
                  (Course.ID (IAssignmentLink.course l)) (User.ID student))
               (User.Name student))
            (provider_getAssignments provider
               (Course.ID (IAssignmentLink.course l))))
    (IAssignmentLink.course l).

(** The entries of a link are the course's assignments, in the provider's
    order, each soundly paired under the student's name. *)
Definition completeLink (provider : ICourseProvider) (student : User.t)
    (l : IAssignmentLink.t) : Prop :=
  map IStudentSubmission.assignment (IAssignmentLink.assignments l)
  = provider_getAssignments provider (Course.ID (IAssignmentLink.course l))
  /\ Forall (soundEntry
               (provider_getAllLabInfos provider
                  (Course.ID (IAssignmentLink.course l)) (User.ID student))
               (User.Name student))
            (IAssignmentLink.assignments l).


(** The assignments a filler works on: the list it is given, or the
    course's assignments as the provider returns them. *)
Definition assignmentsOf (provider : ICourseProvider)
    (l : IAssignmentLink.t) (assignments : option (list Assignment.t))
    : list Assignment.t :=
  match assignments with
  | Some given => given
  | None => provider_getAssignments provider
              (Course.ID (IAssignmentLink.course l))
  end.

(** * Facts *)

(** ** Fields, conditions and updates *)

Lemma condN_refl x : Field.condN x x = true.
Proof. unfold Field.condN. rewrite N.eqb_refl. apply orb_true_r. Qed.

Lemma condN_zero r : Field.condN 0 r = true.
Proof. reflexivity. Qed.

Lemma condN_true q r : Field.condN q r = true <-> q = 0 \/ q = r.
Proof.
  unfold Field.condN. rewrite orb_true_iff, !N.eqb_eq. tauto.
Qed.

Lemma setN_same x : Field.setN x x = x.
Proof. unfold Field.setN. now destruct (x =? 0). Qed.




Lemma setN_zero_l x : Field.setN 0 x = x.
Proof. reflexivity. Qed.

Lemma setN_zero_r x : Field.setN x 0 = x.
Proof. unfold Field.setN. destruct (N.eqb_spec x 0); congruence. Qed.

Lemma setS_empty_r x : Field.setS x "" = x.
Proof. unfold Field.setS. destruct (String.eqb_spec x ""); congruence. Qed.

Lemma setB_false_r x : Field.setB x false = x.
Proof. now destruct x. Qed.

Lemma setStatus_none_r x : Field.setStatus x Status.NONE = x.
Proof. now destruct x. Qed.

Lemma Updates_id {A : Type} (cond : A -> bool) (f : A -> A) tbl :
  (forall r, In r tbl -> cond r = true -> f r = r) ->
  Updates cond f tbl = tbl.
Proof.
  unfold Updates. induction tbl as [|r tbl IH]; simpl; intros H.
  - reflexivity.
  - rewrite IH by (intros; apply H; auto). f_equal.
    destruct (cond r) eqn:E; auto.
Qed.

Lemma Count_zero_existsb {A : Type} (p : A -> bool) tbl :
  Count p tbl = 0 <-> existsb p tbl = false.
Proof.
  unfold Count. induction tbl as [|r tbl IH]; simpl.
  - split; reflexivity.
  - destruct (p r); simpl.
    + split; [lia | discriminate].
    + exact IH.
Qed.

Lemma Count_le_1 {A : Type} (key : A -> N) (id : N) tbl :
  NoDup (map key tbl) -> Count (fun r => key r =? id) tbl <= 1.
Proof.
  unfold Count. induction tbl as [|r tbl IH]; simpl; intros Hnd.
  - lia.
  - inversion Hnd as [|x l Hnotin Hnd']; subst.
    destruct (N.eqb_spec (key r) id) as [E|E]; simpl.
    + assert (Hz : filter (fun r0 => key r0 =? id) tbl = []).
      { destruct (filter (fun r0 => key r0 =? id) tbl) as [|y ys] eqn:F;
          [reflexivity|exfalso].
        assert (Hy : In y (filter (fun r0 => key r0 =? id) tbl))
          by (rewrite F; left; reflexivity).
        apply filter_In in Hy. destruct Hy as [Hy1 Hy2].
        apply N.eqb_eq in Hy2. apply Hnotin. rewrite E, <- Hy2.
        now apply in_map. }
      rewrite Hz. simpl. lia.
    + auto.
Qed.

(** ** [CreateSubmission]: the checks before the write *)

Lemma invalidReference_refused db s :
  invalidReference s ->
  CreateSubmission db s = (db, s, Some ErrRecordNotFound).
Proof.
  unfold invalidReference, CreateSubmission.
  intros [HA | [[HU HG] | [HU HG]]].
  - rewrite HA. reflexivity.
  - destruct (Submission.AssignmentID s <? 1); [reflexivity|].
    apply N.ltb_lt in HU, HG. rewrite HU, HG. reflexivity.
  - destruct (Submission.AssignmentID s <? 1); [reflexivity|].
    rewrite HU, HG. reflexivity.
Qed.

(** C1, as amended: a submission whose assignment reference is 0, or whose
    user and group references are both set or both unset, is refused with
    [gorm.ErrRecordNotFound] -- the very error a missing row produces, not
    an error of a separate kind -- and the tables are left as they were. *)
Theorem CreateSubmission_invalid_reference :
  forall (db : GormDB) (s : Submission.t),
    invalidReference s ->
    CreateSubmission db s = (db, s, Some ErrRecordNotFound)
    /\ ~ failsWithInvalidReference db s.
Proof.
  intros db s H. pose proof (invalidReference_refused db s H) as E.
  split; [exact E|].
  intros [e [He Hne]]. rewrite E in He. congruence.
Qed.

Lemma CreateSubmission_invalid_reference_witness :
  invalidReference (Submission.mk 0 0 4 0 9 "" "" false Status.NONE)
  /\ CreateSubmission (mkDB [User.mk 4 "eve"] [] [] [] [] [])
       (Submission.mk 0 0 4 0 9 "" "" false Status.NONE)
     = (mkDB [User.mk 4 "eve"] [] [] [] [] [],
        Submission.mk 0 0 4 0 9 "" "" false Status.NONE,
        Some ErrRecordNotFound).
Proof.
  split.
  - left. reflexivity.
  - apply (CreateSubmission_invalid_reference
             (mkDB [User.mk 4 "eve"] [] [] [] [] [])
             (Submission.mk 0 0 4 0 9 "" "" false Status.NONE)).
    left. reflexivity.
Defined.

(** C1, as stated, fails: with assignment reference 0 the error is the
    not-found error itself, so no distinct kind is reported. *)
Lemma invalid_reference_reported_as_not_found :
  invalidReference (Submission.mk 0 0 4 0 9 "" "" false Status.NONE)
  /\ ~ failsWithInvalidReference (mkDB [User.mk 4 "eve"] [] [] [] [] [])
         (Submission.mk 0 0 4 0 9 "" "" false Status.NONE).
Proof.
  split.
  - left. reflexivity.
  - intros [e [He Hne]]. vm_compute in He. congruence.
Qed.

Lemma existsb_of_Count {A : Type} (p : A -> bool) tbl :
  Count p tbl <> 0 -> existsb p tbl = true.
Proof.
  intros H. destruct (existsb p tbl) eqn:E; [reflexivity|].
  apply Count_zero_existsb in E. contradiction.
Qed.

(** C2: under primary keys each existence check counts no row or exactly
    one; when the owner check or the assignment check counts none, a
    well-shaped submission is refused with [gorm.ErrRecordNotFound] and the
    tables are left as they were. *)
Theorem CreateSubmission_missing_reference :
  forall (db : GormDB) (s : Submission.t),
    primaryKeys db ->
    wellShaped s ->
    (ownerCount db s <= 1 /\ assignmentCount db s <= 1)
    /\ (ownerCount db s = 0 \/ assignmentCount db s = 0 ->
        CreateSubmission db s = (db, s, Some ErrRecordNotFound)).
Proof.
  intros db s (HU & HG & HA) (Hasg & Hshape).
  assert (Hoc : ownerCount db s <= 1).
  { unfold ownerCount. destruct (0 <? Submission.UserID s);
      apply Count_le_1; assumption. }
  assert (Hac : assignmentCount db s <= 1)
    by (apply Count_le_1; assumption).
  split; [split; assumption|].
  intros Hzero. unfold CreateSubmission.
  assert (E1 : (Submission.AssignmentID s <? 1) = false)
    by (apply N.ltb_ge; lia).
  rewrite E1. unfold ownerCount, assignmentCount in *.
  destruct Hshape as [[Hu Hg] | [Hu Hg]].
  - apply N.ltb_lt in Hu. rewrite Hu in *. rewrite Hg. simpl.
    destruct (existsb (fun u => User.ID u =? Submission.UserID s) (users db))
      eqn:Ex; [|reflexivity].
    destruct Hzero as [Hz | Hz].
    + apply Count_zero_existsb in Hz. congruence.
    + rewrite Hz. simpl.
      destruct (N.eqb_spec
                  (Count (fun u => User.ID u =? Submission.UserID s)
                         (users db)) 2) as [E|E]; [lia|reflexivity].
  - rewrite Hu in *. simpl in *. apply N.ltb_lt in Hg. rewrite Hg.
    unfold CountModel, FirstGroup. simpl.
    destruct (existsb (fun g => Group.ID g =? Submission.GroupID s)
                      (groups db)) eqn:Ex; [|reflexivity].
    destruct Hzero as [Hz | Hz].
    + apply Count_zero_existsb in Hz. congruence.
    + rewrite Hz. simpl.
      destruct (N.eqb_spec
                  (Count (fun g => Group.ID g =? Submission.GroupID s)
                         (groups db)) 2) as [E|E]; [lia|reflexivity].
Qed.

Lemma CreateSubmission_missing_reference_witness :
  CreateSubmission
    (mkDB [User.mk 4 "eve"] [] [Course.mk 1 "dat100"] [Assignment.mk 2 1 1]
          [] [])
    (Submission.mk 0 3 4 0 55 "" "" false Status.NONE)
  = (mkDB [User.mk 4 "eve"] [] [Course.mk 1 "dat100"] [Assignment.mk 2 1 1]
          [] [],
     Submission.mk 0 3 4 0 55 "" "" false Status.NONE,
     Some ErrRecordNotFound).
Proof.
  refine (proj2 (CreateSubmission_missing_reference
                   (mkDB [User.mk 4 "eve"] [] [Course.mk 1 "dat100"]
                         [Assignment.mk 2 1 1] [] [])
                   (Submission.mk 0 3 4 0 55 "" "" false Status.NONE)
                   _ _) _).
  - repeat split; repeat constructor; simpl; tauto.
  - split; [simpl; lia | left; split; [simpl; lia | reflexivity]].
  - right. reflexivity.
Defined.

Lemma CreateSubmission_checked db s :
  wellShaped s -> referencesExist db s ->
  CreateSubmission db s = writeSubmission db s.
Proof.
  intros (Hasg & Hshape) (Hoc & Hac). unfold CreateSubmission.
  assert (E1 : (Submission.AssignmentID s <? 1) = false)
    by (apply N.ltb_ge; lia).
  rewrite E1. unfold ownerCount, assignmentCount in *.
  destruct Hshape as [[Hu Hg] | [Hu Hg]].
  - apply N.ltb_lt in Hu. rewrite Hu in *. rewrite Hg. simpl.
    rewrite existsb_of_Count by (rewrite Hoc; discriminate).
    rewrite Hoc, Hac. reflexivity.
  - rewrite Hu in *. simpl in *. apply N.ltb_lt in Hg. rewrite Hg.
    unfold CountModel, FirstGroup. simpl.
    rewrite existsb_of_Count by (rewrite Hoc; discriminate).
    rewrite Hoc, Hac. reflexivity.
Qed.

(** ** [CreateSubmission]: the write *)

Lemma condS_refl x : Field.condS x x = true.
Proof. unfold Field.condS. rewrite String.eqb_refl. apply orb_true_r. Qed.

Lemma condB_refl x : Field.condB x x = true.
Proof. now destruct x. Qed.

Lemma condStatus_refl x : Field.condStatus x x = true.
Proof. now destruct x. Qed.

Lemma matches_refl r : Submission.matches r r = true.
Proof.
  unfold Submission.matches.
  now rewrite !condN_refl, !condS_refl, condB_refl, condStatus_refl.
Qed.

Lemma matches_key_self s i :
  Submission.matches (key s) (Submission.setID s i) = true.
Proof.
  unfold Submission.matches, key. simpl. now rewrite !condN_refl.
Qed.


Lemma filter_nil {A : Type} (p : A -> bool) l :
  (forall r, In r l -> p r = false) -> filter p l = [].
Proof.
  induction l as [|x l IH]; simpl; intros H; [reflexivity|].
  rewrite (H x) by auto. apply IH. auto.
Qed.

Lemma filter_nil_inv {A : Type} (p : A -> bool) l r :
  filter p l = [] -> In r l -> p r = false.
Proof.
  intros H Hr. destruct (p r) eqn:E; [|reflexivity].
  assert (Hin : In r (filter p l)) by (apply filter_In; auto).
  rewrite H in Hin. destruct Hin.
Qed.

Lemma assign_init s :
  Submission.assign s (Submission.assign (key s) Submission.zero) = s.
Proof.
  destruct s. unfold Submission.assign, key. simpl.
  now rewrite !setN_zero_r, !setN_same, !setS_empty_r, setB_false_r,
    setStatus_none_r.
Qed.



Lemma setID_self s : Submission.setID s (Submission.ID s) = s.
Proof. now destruct s. Qed.

Lemma setScore_zero r :
  Submission.Score r = 0 -> Submission.setScore r 0 = r.
Proof. destruct r. simpl. now intros ->. Qed.

Lemma Create_available db s :
  identifierAvailable db s ->
  exists i,
    Create (submissions db) s
    = (submissions db ++ [Submission.setID s i], Submission.setID s i, None)
    /\ (Submission.ID s = 0 \/ i = Submission.ID s).
Proof.
  intros H. unfold Create.
  destruct (N.eqb_spec (Submission.ID s) 0) as [E|E].
  - exists (nextID (submissions db)). auto.
  - destruct H as [H|H]; [contradiction|]. rewrite H.
    exists (Submission.ID s). rewrite setID_self. auto.
Qed.

(** First submission of a pair: the row is created with the incoming
    values. *)
Lemma writeSubmission_creates db s :
  identifierAvailable db s -> rowsFor db s = [] ->
  exists i,
    writeSubmission db s
    = (setSubmissions db (submissions db ++ [Submission.setID s i]),
       Submission.setID s i, None)
    /\ (Submission.ID s = 0 \/ i = Submission.ID s).
Proof.
  intros Hav Hrows. unfold rowsFor in Hrows.
  destruct (Create_available db s Hav) as (i & HC & Hi).
  exists i. split; [|exact Hi].
  unfold writeSubmission. fold (key s).
  unfold Last. rewrite Hrows. cbn [fold_left].
  unfold FirstOrCreate, First. rewrite Hrows. cbn [fold_left].
  rewrite assign_init, HC. cbv beta iota.
  assert (Hsame :
    Updates (fun r => Submission.primaryKey s r
                      && Submission.matches (key s) r)
            (fun r => Submission.setScore r 0)
            (submissions db ++ [Submission.setID s i])
    = submissions db ++ [Submission.setID s i]
    \/ (Submission.Score s =? 0) = false).
  { destruct (N.eqb_spec (Submission.Score s) 0) as [E|E]; [left|now right].
    apply Updates_id. intros r Hr Hc.
    apply andb_true_iff in Hc. destruct Hc as [_ Hm].
    apply in_app_or in Hr. destruct Hr as [Hr | [<- | []]].
    - rewrite (filter_nil_inv _ _ _ Hrows Hr) in Hm. discriminate.
    - apply setScore_zero. destruct s; exact E. }
  assert (Hid : Submission.setID s (Submission.ID (Submission.setID s i))
                = Submission.setID s i) by (destruct s; reflexivity).
  destruct Hsame as [Hsame | Hnz].
  - destruct (Submission.Score s =? 0); [rewrite Hsame|];
      now rewrite Hid.
  - rewrite Hnz. now rewrite Hid.
Qed.





(** C3 fails on the update path: the stored row has score 7 and the build
    log of an earlier run, the incoming submission has score 0 and a new
    build log.  The merge writes the new log and skips the zero score; the
    forced write then selects with the row as [Last] loaded it -- the
    earlier log -- finds nothing, and the stored score stays 7. *)
Theorem CreateSubmission_zero_score_not_forced :
  CreateSubmission
    (mkDB [User.mk 1 "ann"] [] [Course.mk 1 "dat100"] [Assignment.mk 1 1 1]
          [Submission.mk 1 1 1 0 7 "" "build 1" false Status.NONE] [])
    (Submission.mk 0 1 1 0 0 "" "build 2" false Status.NONE)
  = (mkDB [User.mk 1 "ann"] [] [Course.mk 1 "dat100"] [Assignment.mk 1 1 1]
          [Submission.mk 1 1 1 0 7 "" "build 2" false Status.NONE] [],
     Submission.mk 1 1 1 0 0 "" "build 2" false Status.NONE,
     None).
Proof. reflexivity. Qed.

(** The same happens when the merge changes the status of the stored
    row. *)
Example CreateSubmission_zero_score_status :
  CreateSubmission
    (mkDB [User.mk 1 "ann"] [] [Course.mk 1 "dat100"] [Assignment.mk 1 1 1]
          [Submission.mk 1 1 1 0 7 "" "" false Status.APPROVED] [])
    (Submission.mk 0 1 1 0 0 "" "" false Status.REJECTED)
  = (mkDB [User.mk 1 "ann"] [] [Course.mk 1 "dat100"] [Assignment.mk 1 1 1]
          [Submission.mk 1 1 1 0 7 "" "" false Status.REJECTED] [],
     Submission.mk 1 1 1 0 0 "" "" false Status.REJECTED,
     None).
Proof. reflexivity. Qed.

(** An incoming submission that sets nothing but the pair: here the forced
    write finds the row and the score becomes 0. *)
Example CreateSubmission_zero_score_plain :
  CreateSubmission
    (mkDB [User.mk 1 "ann"] [] [Course.mk 1 "dat100"] [Assignment.mk 1 1 1]
          [Submission.mk 1 1 1 0 7 "" "" false Status.APPROVED] [])
    (Submission.mk 0 1 1 0 0 "" "" false Status.NONE)
  = (mkDB [User.mk 1 "ann"] [] [Course.mk 1 "dat100"] [Assignment.mk 1 1 1]
          [Submission.mk 1 1 1 0 0 "" "" false Status.APPROVED] [],
     Submission.mk 1 1 1 0 0 "" "" false Status.NONE,
     None).
Proof. reflexivity. Qed.

(** *** Identifiers stay primary keys *)

Lemma nextID_fresh tbl r :
  In r tbl -> Submission.ID r < nextID tbl.
Proof.
  unfold nextID. induction tbl as [|x tbl IH]; cbn [fold_right In];
    intros H; [destruct H|].
  destruct H as [-> | H]; [lia|]. specialize (IH H). lia.
Qed.

Lemma Updates_keeps {A B : Type} (key : A -> B) (cond : A -> bool)
    (f : A -> A) tbl :
  (forall r, cond r = true -> key (f r) = key r) ->
  map key (Updates cond f tbl) = map key tbl.
Proof.
  intros H. unfold Updates. rewrite map_map. apply map_ext. intros r.
  destruct (cond r) eqn:E; auto.
Qed.

Lemma Create_keeps_keys tbl row :
  NoDup (map Submission.ID tbl) ->
  NoDup (map Submission.ID (fst (fst (Create tbl row)))).
Proof.
  intros Hnd. unfold Create.
  destruct (N.eqb_spec (Submission.ID row) 0) as [E|E]; simpl.
  - rewrite map_app. simpl. apply NoDup_app; [assumption|repeat constructor;
      intros []|].
    intros x Hx [<- | []]. apply in_map_iff in Hx.
    destruct Hx as (r & Hr & Hin). apply nextID_fresh in Hin.
    destruct row; simpl in *. lia.
  - destruct (existsb (fun r => Submission.ID r =? Submission.ID row) tbl)
      eqn:Ex; simpl; [assumption|].
    rewrite map_app. simpl. apply NoDup_app; [assumption|repeat constructor;
      intros []|].
    intros x Hx [<- | []]. apply in_map_iff in Hx.
    destruct Hx as (r & Hr & Hin).
    assert (Ht : existsb (fun r0 => Submission.ID r0 =? Submission.ID row)
                         tbl = true).
    { apply existsb_exists. exists r. split; [assumption|].
      now apply N.eqb_eq. }
    congruence.
Qed.

Lemma FirstOrCreate_keeps_keys tbl query attrs :
  NoDup (map Submission.ID tbl) ->
  NoDup (map Submission.ID (fst (fst (FirstOrCreate tbl query attrs)))).
Proof.
  intros Hnd. unfold FirstOrCreate.
  destruct (First query tbl) as [found|]; [|now apply Create_keeps_keys].
  simpl. rewrite Updates_keeps; [assumption|].
  intros r Hc. apply andb_true_iff in Hc. destruct Hc as [Hpk _].
  unfold Submission.primaryKey, Submission.assign in *. simpl in *.
  unfold Field.setN in *.
  destruct (N.eqb_spec (Submission.ID attrs) 0) as [E|E]; [reflexivity|].
  apply condN_true in Hpk. destruct Hpk as [Hpk|Hpk]; congruence.
Qed.

(** [CreateSubmission] writes to the submissions table only, and keeps its
    identifiers pairwise distinct. *)
Lemma CreateSubmission_keeps_keys db s :
  let db' := fst (fst (CreateSubmission db s)) in
  (users db' = users db /\ groups db' = groups db
   /\ courses db' = courses db /\ assignments db' = assignments db
   /\ reviews db' = reviews db)
  /\ (NoDup (map Submission.ID (submissions db)) ->
      NoDup (map Submission.ID (submissions db'))).
Proof.
  assert (Hw : let db' := fst (fst (writeSubmission db s)) in
    (users db' = users db /\ groups db' = groups db
     /\ courses db' = courses db /\ assignments db' = assignments db
     /\ reviews db' = reviews db)
    /\ (NoDup (map Submission.ID (submissions db)) ->
        NoDup (map Submission.ID (submissions db')))).
  { unfold writeSubmission.
    set (query := match Last _ (submissions db) with
                  | Some row => row
                  | None => _
                  end).
    pose proof (FirstOrCreate_keeps_keys (submissions db) query s) as HF.
    destruct (FirstOrCreate (submissions db) query s) as [[tbl lab] err].
    simpl in HF.
    destruct (Submission.Score s =? 0); simpl;
      (split; [repeat split|]); intros Hnd; auto.
    rewrite Updates_keeps; [auto|]. intros r _. now destruct r. }
  unfold CreateSubmission.
  destruct (Submission.AssignmentID s <? 1); [simpl; tauto|].
  destruct ((0 <? Submission.UserID s) && (0 <? Submission.GroupID s));
    [simpl; tauto|].
  destruct (0 <? Submission.UserID s).
  - unfold CountModel, FirstUser. simpl Error.
    destruct (existsb _ (users db)); [|simpl; tauto].
    cbv beta iota. destruct (negb _); [simpl; tauto | exact Hw].
  - destruct (0 <? Submission.GroupID s); [|simpl; tauto].
    unfold CountModel, FirstGroup. simpl Error.
    destruct (existsb _ (groups db)); [|simpl; tauto].
    cbv beta iota. destruct (negb _); [simpl; tauto | exact Hw].
Qed.

(** ** [UpdateSubmissions] *)

(** C5, as amended: on every stored submission of the assignment whose
    score is at least the threshold, the status is set when the given
    status is not NONE and the released flag is set when the given flag is
    true; a NONE status or a false flag leaves the stored value.  Rows
    below the threshold or of other assignments are unchanged, no other
    field of any row changes, no other table changes, and no error is
    reported. *)
Theorem approveByThreshold_sets_nonzero :
  forall (db : GormDB) (courseID assignmentID minimumScore : N)
         (newStatus : Status.t) (released : bool),
    approveByThreshold db courseID assignmentID minimumScore newStatus
      released
    = (setSubmissions db
         (map (fun r =>
                 if atOrAbove assignmentID minimumScore r
                 then withStatusReleased r
                        (match newStatus with
                         | Status.NONE => Submission.Status r
                         | _ => newStatus
                         end)
                        (released || Submission.Released r)
                 else r)
              (submissions db)),
       None)
    /\ (newStatus <> Status.NONE -> released = true ->
        approvedAsWorded db courseID assignmentID minimumScore newStatus
          released).
Proof.
  intros db courseID assignmentID minimumScore newStatus released.
  assert (E :
    approveByThreshold db courseID assignmentID minimumScore newStatus
      released
    = (setSubmissions db
         (map (fun r =>
                 if atOrAbove assignmentID minimumScore r
                 then withStatusReleased r
                        (match newStatus with
                         | Status.NONE => Submission.Status r
                         | _ => newStatus
                         end)
                        (released || Submission.Released r)
                 else r)
              (submissions db)),
       None)).
  { unfold approveByThreshold, UpdateSubmissions, Updates.
    apply (f_equal (fun tbl => (setSubmissions db tbl, @None error))).
    apply map_ext. intros r.
    unfold Submission.primaryKey, atOrAbove, Submission.assign,
      withStatusReleased.
    cbn [Submission.ID Submission.AssignmentID Submission.UserID
         Submission.GroupID Submission.Score Submission.ScoreObjects
         Submission.BuildInfo Submission.Released Submission.Status].
    rewrite condN_zero, !setN_zero_l. cbn [andb].
    destruct ((Submission.AssignmentID r =? assignmentID)
              && (minimumScore <=? Submission.Score r)); [|reflexivity].
    destruct released, newStatus; reflexivity. }
  split; [exact E|].
  intros Hst Hrel. unfold approvedAsWorded. rewrite E. simpl.
  apply map_ext. intros r. subst released.
  destruct (atOrAbove assignmentID minimumScore r); [|reflexivity].
  destruct newStatus; [contradiction| | |]; reflexivity.
Qed.

Lemma approveByThreshold_sets_nonzero_witness :
  approvedAsWorded
    (mkDB [] [] [] []
          [Submission.mk 1 3 4 0 80 "" "" false Status.NONE;
           Submission.mk 2 3 5 0 20 "" "" false Status.NONE] [])
    1 3 50 Status.APPROVED true.
Proof.
  apply (approveByThreshold_sets_nonzero
           (mkDB [] [] [] []
                 [Submission.mk 1 3 4 0 80 "" "" false Status.NONE;
                  Submission.mk 2 3 5 0 20 "" "" false Status.NONE] [])
           1 3 50 Status.APPROVED true).
  - discriminate.
  - reflexivity.
Defined.

(** C5, as stated, fails: a released row at or above the threshold stays
    released when the call passes released = false. *)
Lemma approveByThreshold_keeps_released :
  ~ approvedAsWorded
      (mkDB [] [] [] []
            [Submission.mk 1 3 4 0 60 "" "" true Status.NONE] [])
      1 3 50 Status.APPROVED false.
Proof. unfold approvedAsWorded. vm_compute. discriminate. Qed.

(** ** [UpdateReview] *)

Lemma setReviews_same db : setReviews db (reviews db) = db.
Proof. now destruct db. Qed.

Lemma keysAgree_cond q r :
  Review.primaryKey q r
  && Review.matches
       (Review.mk (Review.ID q) (Review.SubmissionID q) (Review.ReviewerID q)
                  "" "" false 0) r
  = keysAgree q r.
Proof.
  unfold Review.primaryKey, Review.matches, keysAgree. simpl.
  rewrite condN_zero, !andb_true_r.
  destruct (Field.condN (Review.ID q) (Review.ID r)); reflexivity.
Qed.

Lemma keysAgree_sameReview q r :
  Review.ID q <> 0 -> Review.SubmissionID q <> 0 ->
  Review.ReviewerID q <> 0 ->
  keysAgree q r = sameReview q r.
Proof.
  intros H1 H2 H3. unfold keysAgree, sameReview, Field.condN.
  apply N.eqb_neq in H1, H2, H3. rewrite H1, H2, H3. simpl.
  now rewrite (N.eqb_sym (Review.ID q)),
    (N.eqb_sym (Review.SubmissionID q)), (N.eqb_sym (Review.ReviewerID q)).
Qed.

(** C8, as amended: [UpdateReview] selects the stored rows that agree with
    the review on each of identifier, submission reference and reviewer
    reference that is set in the review (a reference left 0 selects
    nothing out); on those rows it writes the feedback, the review content,
    the ready flag and the score, each when its incoming value is not the
    zero value, and nothing else; the identifier, submission reference and
    reviewer reference of every stored row stay; and when all three are set
    and no stored row agrees on all three, nothing changes and no error is
    reported. *)
Theorem UpdateReview_overwrites_content :
  forall (db : GormDB) (q : Review.t),
    UpdateReview db q
    = (setReviews db
         (map (fun r =>
                 if keysAgree q r
                 then Review.mk (Review.ID r) (Review.SubmissionID r)
                        (Review.ReviewerID r)
                        (Field.setS (Review.Feedback q) (Review.Feedback r))
                        (Field.setS (Review.Review q) (Review.Review r))
                        (Review.Ready q || Review.Ready r)
                        (Field.setN (Review.Score q) (Review.Score r))
                 else r)
              (reviews db)),
       None)
    /\ map (fun r => (Review.ID r, Review.SubmissionID r,
                      Review.ReviewerID r))
           (reviews (fst (UpdateReview db q)))
       = map (fun r => (Review.ID r, Review.SubmissionID r,
                        Review.ReviewerID r))
             (reviews db)
    /\ (Review.ID q <> 0 -> Review.SubmissionID q <> 0 ->
        Review.ReviewerID q <> 0 -> noOpWithoutMatch db q).
Proof.
  intros db q.
  assert (E :
    UpdateReview db q
    = (setReviews db
         (map (fun r =>
                 if keysAgree q r
                 then Review.mk (Review.ID r) (Review.SubmissionID r)
                        (Review.ReviewerID r)
                        (Field.setS (Review.Feedback q) (Review.Feedback r))
                        (Field.setS (Review.Review q) (Review.Review r))
                        (Review.Ready q || Review.Ready r)
                        (Field.setN (Review.Score q) (Review.Score r))
                 else r)
              (reviews db)),
       None)).
  { unfold UpdateReview, Updates.
    apply (f_equal (fun tbl => (setReviews db tbl, @None error))).
    apply map_ext. intros r. rewrite keysAgree_cond.
    destruct (keysAgree q r); [|reflexivity].
    unfold Review.assign.
    cbn [Review.ID Review.SubmissionID Review.ReviewerID Review.Feedback
         Review.Review Review.Ready Review.Score].
    rewrite !setN_zero_l. now destruct (Review.Ready q). }
  split; [exact E|split].
  - rewrite E. simpl. rewrite map_map. apply map_ext. intros r.
    now destruct (keysAgree q r).
  - intros H1 H2 H3 Hnone. rewrite E. simpl.
    transitivity (setReviews db (reviews db)); [|apply setReviews_same].
    f_equal.
    transitivity (map (fun r => r) (reviews db)); [|apply map_id].
    apply map_ext_in.
    intros r Hr. rewrite (keysAgree_sameReview q r H1 H2 H3).
    now rewrite (Hnone r Hr).
Qed.

Lemma UpdateReview_overwrites_content_witness :
  noOpWithoutMatch
    (mkDB [] [] [] [] [] [Review.mk 3 5 7 "old" "" false 0])
    (Review.mk 3 5 8 "new" "" true 40).
Proof.
  apply (UpdateReview_overwrites_content
           (mkDB [] [] [] [] [] [Review.mk 3 5 7 "old" "" false 0])
           (Review.mk 3 5 8 "new" "" true 40));
    discriminate.
Defined.

(** C8, as stated, fails: the review leaves its submission and reviewer
    references 0, no stored row agrees on all three fields, and the stored
    row with the review's identifier is overwritten all the same. *)
Lemma UpdateReview_zero_reference_matches :
  ~ noOpWithoutMatch
      (mkDB [] [] [] [] [] [Review.mk 3 5 7 "old" "" false 0])
      (Review.mk 3 0 0 "new" "" false 0).
Proof.
  intros H.
  assert (Hnone : forall r,
    In r (reviews (mkDB [] [] [] [] [] [Review.mk 3 5 7 "old" "" false 0])) ->
    sameReview (Review.mk 3 0 0 "new" "" false 0) r = false).
  { intros r [<- | []]. reflexivity. }
  specialize (H Hnone). vm_compute in H. discriminate.
Qed.

(** ** [GetSubmission] and [GetLastSubmissions] *)

Lemma pickLast_fold l : forall acc s,
  fold_left pickLast l acc = Some s ->
  (acc = Some s \/ In s l)
  /\ (forall r, In r l -> Submission.ID r <= Submission.ID s)
  /\ (forall a, acc = Some a -> Submission.ID a <= Submission.ID s).
Proof.
  induction l as [|x l IH]; simpl; intros acc s H.
  - subst acc. split; [now left|]. split; [intros r []|].
    intros a Ha. inversion Ha. lia.
  - apply IH in H. destruct H as (Hin & Hmax & Hacc).
    assert (Hx : Submission.ID x <= Submission.ID s
                 /\ forall a, acc = Some a ->
                              Submission.ID a <= Submission.ID s).
    { destruct acc as [a|]; simpl in *.
      - destruct (N.leb_spec (Submission.ID a) (Submission.ID x)) as [L|L].
        + specialize (Hacc x eq_refl). split; [assumption|].
          intros a' Ha'. inversion Ha'; subst. lia.
        + specialize (Hacc a eq_refl). split; [lia|].
          intros a' Ha'. inversion Ha'; subst. assumption.
      - split; [now apply Hacc|]. intros a Ha. discriminate. }
    destruct Hx as [Hx Hacc'].
    split; [|split].
    + destruct Hin as [Hin | Hin]; [|now right; right].
      destruct acc as [a|]; simpl in Hin.
      * destruct (Submission.ID a <=? Submission.ID x);
          inversion Hin; subst; [right; left|left]; reflexivity.
      * inversion Hin; subst. right; left; reflexivity.
    + intros r [<- | Hr]; [assumption | now apply Hmax].
    + assumption.
Qed.

Lemma pickLast_fold_none l : forall acc,
  fold_left pickLast l acc = None -> l = [] /\ acc = None.
Proof.
  induction l as [|x l IH]; simpl; intros acc H; [now split|].
  apply IH in H. destruct H as [_ H].
  destruct acc as [a|]; simpl in H;
    [destruct (Submission.ID a <=? Submission.ID x)|]; discriminate.
Qed.

(** [Last] returns a selected row whose identifier no selected row
    exceeds. *)
Lemma Last_latest q tbl s :
  Last q tbl = Some s ->
  In s (filter (Submission.matches q) tbl)
  /\ forall r, In r (filter (Submission.matches q) tbl) ->
               Submission.ID r <= Submission.ID s.
Proof.
  unfold Last. intros H. apply pickLast_fold in H.
  destruct H as ([H | H] & Hmax & _); [discriminate|]. now split.
Qed.

Lemma Last_none q tbl :
  Last q tbl = None <-> filter (Submission.matches q) tbl = [].
Proof.
  unfold Last. split; intros H.
  - now apply pickLast_fold_none in H.
  - now rewrite H.
Qed.

Lemma setAssignmentID_twice q x y :
  Submission.setAssignmentID (Submission.setAssignmentID q x) y
  = Submission.setAssignmentID q y.
Proof. reflexivity. Qed.

Section LoopFacts.

Variable getSubmission :
  Submission.t -> result (Submission.t * list Review.t).

Lemma aborts_setAssignmentID q x a :
  aborts getSubmission (Submission.setAssignmentID q x) a
  = aborts getSubmission q a.
Proof. reflexivity. Qed.

Lemma found_setAssignmentID q x cas :
  flat_map (found getSubmission (Submission.setAssignmentID q x)) cas
  = flat_map (found getSubmission q) cas.
Proof. reflexivity. Qed.

Lemma lastSubmissionsLoop_all cas : forall q acc,
  (forall a, In a cas -> aborts getSubmission q a = None) ->
  lastSubmissionsLoop getSubmission cas q acc
  = Ok (acc ++ flat_map (found getSubmission q) cas).
Proof.
  induction cas as [|a cas IH]; intros q acc H; simpl.
  - now rewrite app_nil_r.
  - pose proof (H a (or_introl eq_refl)) as Ha.
    assert (Hrest : forall b, In b cas ->
      aborts getSubmission
        (Submission.setAssignmentID q (Assignment.ID a)) b = None).
    { intros b Hb. rewrite aborts_setAssignmentID. apply H. now right. }
    unfold aborts in Ha. unfold found at 1.
    change (getSubmission (Submission.setAssignmentID q (Assignment.ID a)))
      with (lookupFor getSubmission q a).
    destruct (lookupFor getSubmission q a) as [t | [|msg]];
      [| |discriminate]; rewrite (IH _ _ Hrest), found_setAssignmentID.
    + now rewrite <- app_assoc.
    + reflexivity.
Qed.

Lemma lastSubmissionsLoop_abort pre a post e : forall q acc,
  (forall b, In b pre -> aborts getSubmission q b = None) ->
  aborts getSubmission q a = Some e ->
  lastSubmissionsLoop getSubmission (pre ++ a :: post) q acc = Err e.
Proof.
  induction pre as [|b pre IH]; intros q acc H Ha; simpl.
  - unfold aborts in Ha.
    change (getSubmission (Submission.setAssignmentID q (Assignment.ID a)))
      with (lookupFor getSubmission q a).
    destruct (lookupFor getSubmission q a) as [t | [|msg]];
      try discriminate. now inversion Ha.
  - pose proof (H b (or_introl eq_refl)) as Hb.
    assert (Hpre : forall c, In c pre ->
      aborts getSubmission
        (Submission.setAssignmentID q (Assignment.ID b)) c = None).
    { intros c Hc. rewrite aborts_setAssignmentID. apply H. now right. }
    assert (Ha' :
      aborts getSubmission
        (Submission.setAssignmentID q (Assignment.ID b)) a = Some e)
      by now rewrite aborts_setAssignmentID.
    unfold aborts in Hb.
    change (getSubmission (Submission.setAssignmentID q (Assignment.ID b)))
      with (lookupFor getSubmission q b).
    destruct (lookupFor getSubmission q b) as [t | [|msg]];
      [| |discriminate]; now apply IH.
Qed.

End LoopFacts.

Lemma GetSubmission_never_aborts db q a :
  aborts (GetSubmission db) q a = None.
Proof.
  unfold aborts, lookupFor, GetSubmission.
  now destruct (Last _ (submissions db)).
Qed.



(** ** The link builders *)

Lemma fold_pairAssignment submissions authorName assignments : forall l,
  fold_left (pairAssignment submissions authorName) assignments l
  = IAssignmentLink.mk (IAssignmentLink.link l)
      (IAssignmentLink.assignments l
       ++ map (pairing submissions authorName) assignments)
      (IAssignmentLink.course l).
Proof.
  induction assignments as [|a assignments IH]; intros l; simpl.
  - rewrite app_nil_r. now destruct l.
  - rewrite IH. unfold pairAssignment, IAssignmentLink.push. simpl.
    now rewrite <- app_assoc.
Qed.

Lemma find_first {A : Type} (p : A -> bool) pre s post :
  (forall x, In x pre -> p x = false) -> p s = true ->
  find p (pre ++ s :: post) = Some s.
Proof.
  induction pre as [|x pre IH]; simpl; intros Hpre Hs.
  - now rewrite Hs.
  - rewrite (Hpre x) by auto. apply IH; auto.
Qed.

Lemma find_absent {A : Type} (p : A -> bool) l :
  (forall x, In x l -> p x = false) -> find p l = None.
Proof.
  induction l as [|x l IH]; simpl; intros H; [reflexivity|].
  rewrite (H x) by auto. apply IH; auto.
Qed.

Lemma find_present {A : Type} (p : A -> bool) l x :
  In x l -> p x = true ->
  exists y, find p l = Some y /\ In y l /\ p y = true.
Proof.
  induction l as [|z l IH]; simpl; intros Hin Hx; [destruct Hin|].
  destruct (p z) eqn:E.
  - exists z. auto.
  - destruct Hin as [-> | Hin]; [congruence|].
    destruct (IH Hin Hx) as (y & Hy & Hyin & Hyp). exists y. auto.
Qed.

(** What [fillLinks] resolves to and what it asks of the provider, when the
    link is present and the assignments are given. *)
Lemma fillLinks_given provider student l e assignments :
  IAssignmentLink.link l = Some e ->
  run (fillLinks provider student l (Some assignments))
  = match assignments with
    | [] => (l, [])
    | _ :: _ =>
        (IAssignmentLink.mk (IAssignmentLink.link l)
           (IAssignmentLink.assignments l
            ++ map (pairing
                      (provider_getAllLabInfos provider
                         (Course.ID (IAssignmentLink.course l))
                         (User.ID student))
                      (User.Name student))
                   assignments)
           (IAssignmentLink.course l),
         [CallGetAllLabInfos (Course.ID (IAssignmentLink.course l))
                             (User.ID student)])
    end.
Proof.
  intros Hl. unfold run, fillLinks. rewrite Hl.
  destruct assignments as [|a assignments]; [reflexivity|].
  unfold await, resolve, getAllLabInfos.
  cbn [List.length Nat.ltb Nat.leb app]. rewrite fold_pairAssignment.
  now rewrite Hl.
Qed.

Lemma fillLinksGroup_given provider group l e assignments :
  IAssignmentLink.link l = Some e ->
  run (fillLinksGroup provider group l (Some assignments))
  = match assignments with
    | [] => (l, [])
    | _ :: _ =>
        (IAssignmentLink.mk (IAssignmentLink.link l)
           (IAssignmentLink.assignments l
            ++ map (pairing
                      (provider_getAllGroupLabInfos provider
                         (Course.ID (IAssignmentLink.course l))
                         (Group.ID group))
                      (Group.Name group))
                   assignments)
           (IAssignmentLink.course l),
         [CallGetAllGroupLabInfos (Course.ID (IAssignmentLink.course l))
                                  (Group.ID group)])
    end.
Proof.
  intros Hl. unfold run, fillLinksGroup. rewrite Hl.
  destruct assignments as [|a assignments]; [reflexivity|].
  unfold await, resolve, getAllGroupLabInfos.
  cbn [List.length Nat.ltb Nat.leb app]. rewrite fold_pairAssignment.
  now rewrite Hl.
Qed.

Lemma getStudentCourseForTeacher_run provider student course assignments :
  run (getStudentCourseForTeacher provider student course assignments)
  = match assignments with
    | [] =>
        (Some (IAssignmentLink.mk
                 (Some (Enrollment.mk (User.ID (IUserRelation.user student))
                          (Some (IUserRelation.user student))
                          (Course.ID course) (Some course) 0 None
                          (Enrollment.status (IUserRelation.link student))))
                 [] course),
         [])
    | _ :: _ =>
        (Some (IAssignmentLink.mk
                 (Some (Enrollment.mk (User.ID (IUserRelation.user student))
                          (Some (IUserRelation.user student))
                          (Course.ID course) (Some course) 0 None
                          (Enrollment.status (IUserRelation.link student))))
                 (map (pairing
                         (provider_getAllLabInfos provider (Course.ID course)
                            (User.ID (IUserRelation.user student)))
                         (User.Name (IUserRelation.user student)))
                      assignments)
                 course),
         [CallGetAllLabInfos (Course.ID course)
                             (User.ID (IUserRelation.user student))])
    end.
Proof.
  unfold getStudentCourseForTeacher.
  match goal with
  | |- run (await (fillLinks ?p ?u ?l ?a) ?k) = _ =>
      change (run (await (fillLinks p u l a) k))
        with (let '(x, log) := run (fillLinks p u l a) in k x log);
      rewrite (fillLinks_given p u l _ assignments eq_refl)
  end.
  now destruct assignments.
Qed.

(** C7: with the assignment list [A1, A2], a submission of the student
    for A1 in the batch and none for A2, the link holds two entries in that
    order, A1 with a submission of A1 from the batch -- the submission
    itself when the batch holds no other for A1 -- and A2 with none, each
    under the student's name, and its course is the course given; for any
    assignment list the entries follow the list's order and the course is
    the one given, unchanged. *)
Theorem getStudentCourseForTeacher_pairs :
  forall (provider : ICourseProvider) (student : IUserRelation.t)
         (course : Course.t),
    (forall (A1 A2 : Assignment.t) (s1 : ISubmission.t),
        In s1 (provider_getAllLabInfos provider (Course.ID course)
                 (User.ID (IUserRelation.user student))) ->
        ISubmission.assignmentid s1 = Assignment.ID A1 ->
        (forall s,
            In s (provider_getAllLabInfos provider (Course.ID course)
                    (User.ID (IUserRelation.user student))) ->
            ISubmission.assignmentid s <> Assignment.ID A2) ->
        exists link s,
          fst (run (getStudentCourseForTeacher provider student course
                      [A1; A2])) = Some link
          /\ IAssignmentLink.assignments link
             = [IStudentSubmission.mk A1 (Some s)
                  (User.Name (IUserRelation.user student));
                IStudentSubmission.mk A2 None
                  (User.Name (IUserRelation.user student))]
          /\ IAssignmentLink.course link = course
          /\ In s (provider_getAllLabInfos provider (Course.ID course)
                     (User.ID (IUserRelation.user student)))
          /\ ISubmission.assignmentid s = Assignment.ID A1
          /\ ((forall s',
                  In s' (provider_getAllLabInfos provider (Course.ID course)
                           (User.ID (IUserRelation.user student))) ->
                  ISubmission.assignmentid s' = Assignment.ID A1 ->
                  s' = s1) ->
              s = s1))
    /\ (forall assignments : list Assignment.t,
           exists link,
             fst (run (getStudentCourseForTeacher provider student course
                         assignments)) = Some link
             /\ map IStudentSubmission.assignment
                    (IAssignmentLink.assignments link) = assignments
             /\ IAssignmentLink.course link = course).
Proof.
  intros provider student course. split.
  - intros A1 A2 s1 Hin H1 Hnone.
    rewrite getStudentCourseForTeacher_run. cbn [fst map].
    destruct (find_present
                (fun sub => ISubmission.assignmentid sub =? Assignment.ID A1)
                _ s1 Hin (proj2 (N.eqb_eq _ _) H1)) as (s & Hfind & Hs & Hp).
    apply N.eqb_eq in Hp.
    eexists. exists s. split; [reflexivity|].
    cbn [IAssignmentLink.assignments IAssignmentLink.course].
    split; [|split; [reflexivity|split; [exact Hs|split; [exact Hp|]]]].
    + unfold pairing. rewrite Hfind. do 3 f_equal.
      apply find_absent. intros x Hx. apply N.eqb_neq. now apply Hnone.
    + intros Honly. now apply Honly.
  - intros assignments. rewrite getStudentCourseForTeacher_run.
    destruct assignments as [|a assignments]; simpl;
      (eexists; split; [reflexivity|]); split; try reflexivity.
    simpl. f_equal. rewrite map_map. simpl. apply map_id.
Qed.

Lemma getStudentCourseForTeacher_pairs_witness :
  exists link s,
    fst (run (getStudentCourseForTeacher
                (mkProvider (fun _ => [])
                   (fun _ _ => [ISubmission.mk 11 4 0 1 80]) (fun _ _ => []))
                (IUserRelation.mk (User.mk 4 "eve") Enrollment.zero)
                (Course.mk 1 "dat100")
                [Assignment.mk 1 1 1; Assignment.mk 2 1 2])) = Some link
    /\ IAssignmentLink.assignments link
       = [IStudentSubmission.mk (Assignment.mk 1 1 1) (Some s) "eve";
          IStudentSubmission.mk (Assignment.mk 2 1 2) None "eve"]
    /\ IAssignmentLink.course link = Course.mk 1 "dat100"
    /\ In s [ISubmission.mk 11 4 0 1 80]
    /\ ISubmission.assignmentid s = 1
    /\ ((forall s', In s' [ISubmission.mk 11 4 0 1 80] ->
                    ISubmission.assignmentid s' = 1 ->
                    s' = ISubmission.mk 11 4 0 1 80) ->
        s = ISubmission.mk 11 4 0 1 80).
Proof.
  apply (proj1 (getStudentCourseForTeacher_pairs
                  (mkProvider (fun _ => [])
                     (fun _ _ => [ISubmission.mk 11 4 0 1 80])
                     (fun _ _ => []))
                  (IUserRelation.mk (User.mk 4 "eve") Enrollment.zero)
                  (Course.mk 1 "dat100"))
               (Assignment.mk 1 1 1) (Assignment.mk 2 1 2)
               (ISubmission.mk 11 4 0 1 80)).
  - left. reflexivity.
  - reflexivity.
  - intros s [<- | []]. discriminate.
Defined.

(** C9: with an explicitly empty assignment list the link's sequence of
    entries is empty and no call reaches the provider, so no submissions
    are fetched; [fillLinks] itself hands back the link it was given. *)
Theorem getStudentCourseForTeacher_empty :
  forall (provider : ICourseProvider) (student : IUserRelation.t)
         (course : Course.t),
    (exists link,
        run (getStudentCourseForTeacher provider student course [])
        = (Some link, [])
        /\ IAssignmentLink.assignments link = []
        /\ IAssignmentLink.course link = course)
    /\ (forall (u : User.t) (l : IAssignmentLink.t),
           run (fillLinks provider u l (Some [])) = (l, [])).
Proof.
  intros provider student course. split.
  - rewrite getStudentCourseForTeacher_run. eexists.
    split; [reflexivity|]. split; reflexivity.
  - intros u l. unfold run, fillLinks.
    now destruct (IAssignmentLink.link l).
Qed.

(** [fillLinks] without an assignment list, from any state of the log. *)
Lemma fillLinks_omitted provider student l e log :
  IAssignmentLink.link l = Some e ->
  fillLinks provider student l None log
  = (IAssignmentLink.mk (IAssignmentLink.link l)
       (IAssignmentLink.assignments l
        ++ map (pairing
                  (provider_getAllLabInfos provider
                     (Course.ID (IAssignmentLink.course l))
                     (User.ID student))
                  (User.Name student))
               (provider_getAssignments provider
                  (Course.ID (IAssignmentLink.course l))))
       (IAssignmentLink.course l),
     log ++ linkCalls provider (User.ID student) (IAssignmentLink.course l)).
Proof.
  intros Hl. unfold fillLinks, linkCalls. rewrite Hl.
  unfold await, getAssignments.
  destruct (provider_getAssignments provider
              (Course.ID (IAssignmentLink.course l))) as [|a assignments].
  - unfold resolve. cbn [List.length Nat.ltb Nat.leb map].
    rewrite app_nil_r, <- Hl. now destruct l.
  - unfold resolve, getAllLabInfos. cbn [List.length Nat.ltb Nat.leb].
    rewrite fold_pairAssignment, <- app_assoc, Hl. reflexivity.
Qed.

(** [fillLinksGroup] without an assignment list, from any state of the
    log. *)
Lemma fillLinksGroup_omitted provider group l e log :
  IAssignmentLink.link l = Some e ->
  fillLinksGroup provider group l None log
  = (IAssignmentLink.mk (IAssignmentLink.link l)
       (IAssignmentLink.assignments l
        ++ map (pairing
                  (provider_getAllGroupLabInfos provider
                     (Course.ID (IAssignmentLink.course l))
                     (Group.ID group))
                  (Group.Name group))
               (provider_getAssignments provider
                  (Course.ID (IAssignmentLink.course l))))
       (IAssignmentLink.course l),
     log ++ CallGetAssignments (Course.ID (IAssignmentLink.course l))
            :: match provider_getAssignments provider
                       (Course.ID (IAssignmentLink.course l)) with
               | [] => []
               | _ :: _ =>
                   [CallGetAllGroupLabInfos
                      (Course.ID (IAssignmentLink.course l))
                      (Group.ID group)]
               end).
Proof.
  intros Hl. unfold fillLinksGroup. rewrite Hl.
  unfold await, getAssignments.
  destruct (provider_getAssignments provider
              (Course.ID (IAssignmentLink.course l))) as [|a assignments].
  - unfold resolve. cbn [List.length Nat.ltb Nat.leb map].
    rewrite app_nil_r, <- Hl. now destruct l.
  - unfold resolve, getAllGroupLabInfos. cbn [List.length Nat.ltb Nat.leb].
    rewrite fold_pairAssignment, <- app_assoc, Hl. reflexivity.
Qed.

(** The entries a student's filler adds, whether the assignment list is
    given or fetched. *)
Lemma fillLinks_entries provider student l e assignments :
  IAssignmentLink.link l = Some e ->
  IAssignmentLink.assignments
    (fst (run (fillLinks provider student l assignments)))
  = IAssignmentLink.assignments l
    ++ map (pairing
              (provider_getAllLabInfos provider
                 (Course.ID (IAssignmentLink.course l)) (User.ID student))
              (User.Name student))
           (assignmentsOf provider l assignments).
Proof.
  intros Hl. destruct assignments as [given|].
  - rewrite (fillLinks_given provider student l e given Hl).
    destruct given; simpl; [now rewrite app_nil_r | reflexivity].
  - unfold run. rewrite (fillLinks_omitted provider student l e [] Hl).
    reflexivity.
Qed.

Lemma fillLinksGroup_entries provider group l e assignments :
  IAssignmentLink.link l = Some e ->
  IAssignmentLink.assignments
    (fst (run (fillLinksGroup provider group l assignments)))
  = IAssignmentLink.assignments l
    ++ map (pairing
              (provider_getAllGroupLabInfos provider
                 (Course.ID (IAssignmentLink.course l)) (Group.ID group))
              (Group.Name group))
           (assignmentsOf provider l assignments).
Proof.
  intros Hl. destruct assignments as [given|].
  - rewrite (fillLinksGroup_given provider group l e given Hl).
    destruct given; simpl; [now rewrite app_nil_r | reflexivity].
  - unfold run. rewrite (fillLinksGroup_omitted provider group l e [] Hl).
    reflexivity.
Qed.

(** C10: when the batch holds several submissions of one assignment, the
    entry of that assignment carries the first of them in the batch's
    order, whether the filler is given its assignment list or fetches it;
    every assignment it works on receives exactly one entry, so one
    submission at most; and the first one need not be the one with the
    greatest identifier.  The same holds for groups. *)
Theorem fillLinks_first_in_batch :
  forall (provider : ICourseProvider) (l : IAssignmentLink.t)
         (e : Enrollment.t) (assignments : option (list Assignment.t))
         (pre post : list ISubmission.t) (s : ISubmission.t),
    IAssignmentLink.link l = Some e ->
    (forall x, In x pre ->
               ISubmission.assignmentid x <> ISubmission.assignmentid s) ->
    (forall (student : User.t),
        provider_getAllLabInfos provider
          (Course.ID (IAssignmentLink.course l)) (User.ID student)
        = pre ++ s :: post ->
        exists entries,
          IAssignmentLink.assignments
            (fst (run (fillLinks provider student l assignments)))
          = IAssignmentLink.assignments l ++ entries
          /\ entries
             = map (pairing (pre ++ s :: post) (User.Name student))
                   (assignmentsOf provider l assignments)
          /\ map IStudentSubmission.assignment entries
             = assignmentsOf provider l assignments
          /\ forall entry,
               In entry entries ->
               Assignment.ID (IStudentSubmission.assignment entry)
               = ISubmission.assignmentid s ->
               IStudentSubmission.latest entry = Some s)
    /\ (forall (group : Group.t),
           provider_getAllGroupLabInfos provider
             (Course.ID (IAssignmentLink.course l)) (Group.ID group)
           = pre ++ s :: post ->
           exists entries,
             IAssignmentLink.assignments
               (fst (run (fillLinksGroup provider group l assignments)))
             = IAssignmentLink.assignments l ++ entries
             /\ entries
                = map (pairing (pre ++ s :: post) (Group.Name group))
                      (assignmentsOf provider l assignments)
             /\ map IStudentSubmission.assignment entries
                = assignmentsOf provider l assignments
             /\ forall entry,
                  In entry entries ->
                  Assignment.ID (IStudentSubmission.assignment entry)
                  = ISubmission.assignmentid s ->
                  IStudentSubmission.latest entry = Some s)
    /\ IStudentSubmission.latest
         (pairing [ISubmission.mk 1 4 0 3 10; ISubmission.mk 2 4 0 3 90]
                  "eve" (Assignment.mk 3 1 1))
       = Some (ISubmission.mk 1 4 0 3 10).
Proof.
  intros provider l e assignments pre post s Hl Hpre.
  assert (Hfirst : forall name a,
    Assignment.ID a = ISubmission.assignmentid s ->
    IStudentSubmission.latest (pairing (pre ++ s :: post) name a) = Some s).
  { intros name a Ha. unfold pairing. simpl. apply find_first.
    - intros x Hx. apply N.eqb_neq. rewrite Ha. now apply Hpre.
    - apply N.eqb_eq. now rewrite Ha. }
  assert (Hentries : forall name given,
    map IStudentSubmission.assignment
        (map (pairing (pre ++ s :: post) name) given) = given
    /\ forall entry,
         In entry (map (pairing (pre ++ s :: post) name) given) ->
         Assignment.ID (IStudentSubmission.assignment entry)
         = ISubmission.assignmentid s ->
         IStudentSubmission.latest entry = Some s).
  { intros name given. split.
    - induction given as [|a given IH]; simpl; [reflexivity|].
      now rewrite IH.
    - intros entry Hin Hid. apply in_map_iff in Hin.
      destruct Hin as (a & <- & _). now apply Hfirst. }
  split; [|split; [|reflexivity]].
  - intros student Hbatch. eexists. split; [|split; [reflexivity|]].
    + rewrite (fillLinks_entries provider student l e assignments Hl).
      now rewrite Hbatch.
    + apply Hentries.
  - intros group Hbatch. eexists. split; [|split; [reflexivity|]].
    + rewrite (fillLinksGroup_entries provider group l e assignments Hl).
      now rewrite Hbatch.
    + apply Hentries.
Qed.

Lemma fillLinks_first_in_batch_witness :
  exists entries,
    IAssignmentLink.assignments
      (fst (run (fillLinks
                   (mkProvider (fun _ => [Assignment.mk 3 1 1])
                      (fun _ _ => [ISubmission.mk 5 4 0 2 40]
                                  ++ ISubmission.mk 1 4 0 3 10
                                     :: [ISubmission.mk 2 4 0 3 90])
                      (fun _ _ => []))
                   (User.mk 4 "eve")
                   (IAssignmentLink.mk (Some Enrollment.zero) []
                      (Course.mk 1 "dat100"))
                   None)))
    = [] ++ entries
    /\ entries
       = map (pairing ([ISubmission.mk 5 4 0 2 40]
                       ++ ISubmission.mk 1 4 0 3 10
                          :: [ISubmission.mk 2 4 0 3 90]) "eve")
             [Assignment.mk 3 1 1]
    /\ map IStudentSubmission.assignment entries = [Assignment.mk 3 1 1]
    /\ forall entry,
         In entry entries ->
         Assignment.ID (IStudentSubmission.assignment entry) = 3 ->
         IStudentSubmission.latest entry
         = Some (ISubmission.mk 1 4 0 3 10).
Proof.
  refine (proj1 (fillLinks_first_in_batch
                   (mkProvider (fun _ => [Assignment.mk 3 1 1])
                      (fun _ _ => [ISubmission.mk 5 4 0 2 40]
                                  ++ ISubmission.mk 1 4 0 3 10
                                     :: [ISubmission.mk 2 4 0 3 90])
                      (fun _ _ => []))
                   (IAssignmentLink.mk (Some Enrollment.zero) []
                      (Course.mk 1 "dat100"))
                   Enrollment.zero None
                   [ISubmission.mk 5 4 0 2 40] [ISubmission.mk 2 4 0 3 90]
                   (ISubmission.mk 1 4 0 3 10) eq_refl _)
                (User.mk 4 "eve") eq_refl).
  intros x [<- | []]. discriminate.
Defined.

(** * Further facts *)

(** ** Upsert, then lookup *)

Lemma condN_setN v o : Field.condN v (Field.setN v o) = true.
Proof.
  unfold Field.condN, Field.setN.
  destruct (N.eqb_spec v 0) as [E|E]; [reflexivity|].
  rewrite N.eqb_refl. apply orb_true_r.
Qed.

Lemma condS_setS v o : Field.condS v (Field.setS v o) = true.
Proof.
  unfold Field.condS, Field.setS.
  destruct (String.eqb_spec v "") as [E|E]; [reflexivity|].
  rewrite String.eqb_refl. apply orb_true_r.
Qed.

Lemma condB_setB v o : Field.condB v (Field.setB v o) = true.
Proof. now destruct v. Qed.

Lemma condStatus_setStatus v o :
  Field.condStatus v (Field.setStatus v o) = true.
Proof. now destruct v. Qed.

(** After [Assign(v)], a row agrees with [v] on every field [v] sets. *)
Lemma matches_assign v r :
  Submission.matches v (Submission.assign v r) = true.
Proof.
  unfold Submission.matches, Submission.assign. simpl.
  now rewrite !condN_setN, !condS_setS, condB_setB, condStatus_setStatus.
Qed.

Lemma matches_key_assign s r :
  Submission.matches (key s) (Submission.assign s r) = true.
Proof.
  unfold Submission.matches, Submission.assign, key. simpl.
  now rewrite !condN_setN.
Qed.

Lemma matches_key_setScore s r n :
  Submission.matches (key s) (Submission.setScore r n)
  = Submission.matches (key s) r.
Proof. reflexivity. Qed.

Lemma matches_setScore_zero s r :
  Submission.Score s = 0 ->
  Submission.matches s r = true ->
  Submission.matches s (Submission.setScore r 0) = true.
Proof.
  unfold Submission.matches. simpl. intros ->. rewrite !andb_true_iff.
  intros ((((((((H1 & H2) & H3) & H4) & _) & H6) & H7) & H8) & H9).
  now rewrite H1, H2, H3, H4, H6, H7, H8, H9.
Qed.

Lemma matches_ID q r :
  Submission.ID q <> 0 -> Submission.matches q r = true ->
  Submission.ID r = Submission.ID q.
Proof.
  unfold Submission.matches. rewrite !andb_true_iff.
  intros Hq ((((((((H1 & _) & _) & _) & _) & _) & _) & _) & _).
  apply condN_true in H1. destruct H1; congruence.
Qed.

(** A row selected by a row of the pair is a row of the pair. *)
Lemma condN_trans a b c :
  Field.condN a b = true -> Field.condN b c = true ->
  Field.condN a c = true.
Proof.
  rewrite !condN_true. intros [H1|H1] [H2|H2]; subst; auto.
Qed.

Lemma matches_key_trans s L r :
  Submission.matches (key s) L = true ->
  Submission.matches L r = true ->
  Submission.matches (key s) r = true.
Proof.
  unfold Submission.matches, key.
  cbn [Submission.ID Submission.AssignmentID Submission.UserID
       Submission.GroupID Submission.Score Submission.ScoreObjects
       Submission.BuildInfo Submission.Released Submission.Status].
  intros HK HL.
  repeat match goal with
         | H : _ && _ = true |- _ =>
             apply andb_true_iff in H; destruct H
         end.
  repeat (apply andb_true_iff; split); try reflexivity;
    eapply condN_trans; eassumption.
Qed.

Lemma pickFirst_fold l : forall acc s,
  fold_left pickFirst l acc = Some s -> acc = Some s \/ In s l.
Proof.
  induction l as [|x l IH]; simpl; intros acc s H; [now left|].
  apply IH in H. destruct H as [H|H]; [|now right; right].
  destruct acc as [a|]; simpl in H.
  - destruct (Submission.ID x <? Submission.ID a); inversion H; subst;
      [right; left|left]; reflexivity.
  - inversion H. right; left; reflexivity.
Qed.

Lemma pickFirst_fold_some l : forall acc,
  acc <> None -> fold_left pickFirst l acc <> None.
Proof.
  induction l as [|x l IH]; simpl; intros acc H; [assumption|].
  apply IH. destruct acc as [a|]; simpl;
    [destruct (Submission.ID x <? Submission.ID a)|]; discriminate.
Qed.

Lemma First_found q tbl r :
  In r tbl -> Submission.matches q r = true ->
  exists F, First q tbl = Some F /\ In F tbl
            /\ Submission.matches q F = true.
Proof.
  intros Hin Hm. unfold First.
  destruct (fold_left pickFirst (filter (Submission.matches q) tbl) None)
    as [F|] eqn:E.
  - exists F. split; [reflexivity|].
    apply pickFirst_fold in E. destruct E as [E|E]; [discriminate|].
    now apply filter_In in E.
  - exfalso.
    destruct (filter (Submission.matches q) tbl) as [|x l] eqn:Ef.
    + assert (Hr : In r (filter (Submission.matches q) tbl))
        by (apply filter_In; auto).
      rewrite Ef in Hr. destruct Hr.
    + simpl in E. revert E. apply pickFirst_fold_some. discriminate.
Qed.

Lemma pickLast_map (g : Submission.t -> Submission.t) :
  (forall r, Submission.ID (g r) = Submission.ID r) ->
  forall l acc,
    fold_left pickLast (map g l) (option_map g acc)
    = option_map g (fold_left pickLast l acc).
Proof.
  intros Hg. induction l as [|x l IH]; intros acc; simpl; [reflexivity|].
  rewrite <- IH. f_equal. destruct acc as [a|]; simpl; [|reflexivity].
  rewrite !Hg. now destruct (Submission.ID a <=? Submission.ID x).
Qed.

Lemma filter_map_same {A : Type} (p : A -> bool) (g : A -> A) l :
  (forall r, In r l -> p (g r) = p r) ->
  filter p (map g l) = map g (filter p l).
Proof.
  induction l as [|x l IH]; simpl; intros H; [reflexivity|].
  rewrite (H x) by auto. rewrite IH by auto. now destruct (p x).
Qed.

Lemma Last_map q (g : Submission.t -> Submission.t) tbl :
  (forall r, Submission.ID (g r) = Submission.ID r) ->
  (forall r, In r tbl -> Submission.matches q (g r)
                         = Submission.matches q r) ->
  Last q (map g tbl) = option_map g (Last q tbl).
Proof.
  intros Hid Hm. unfold Last. rewrite filter_map_same by assumption.
  exact (pickLast_map g Hid _ None).
Qed.

Lemma assign_keeps_ID s r :
  Submission.ID s = 0 ->
  Submission.ID (Submission.assign s r) = Submission.ID r.
Proof. unfold Submission.assign. simpl. now intros ->. Qed.

(** The update path of [writeSubmission], as one pass over the table. *)
Lemma writeSubmission_updates db s L :
  Submission.ID s = 0 -> Submission.ID L <> 0 ->
  Last (key s) (submissions db) = Some L ->
  exists g : Submission.t -> Submission.t,
    writeSubmission db s
    = (setSubmissions db (map g (submissions db)),
       Submission.setID s (Submission.ID L), None)
    /\ (forall r, Submission.ID (g r) = Submission.ID r)
    /\ (forall r, Submission.matches (key s) (g r)
                  = Submission.matches (key s) r)
    /\ Submission.matches s (g L) = true
    /\ (forall r, Submission.ID r <> Submission.ID L -> g r = r).
Proof.
  intros Hs0 HL0 HL.
  destruct (Last_latest _ _ _ HL) as [HLin _].
  apply filter_In in HLin. destruct HLin as [HLin HkL].
  destruct (First_found L (submissions db) L HLin (matches_refl L))
    as (F & HF & _ & HmF).
  pose proof (matches_ID L F HL0 HmF) as HFid.
  assert (Hout : Submission.ID (Submission.assign s F) = Submission.ID L)
    by (rewrite assign_keeps_ID; assumption).
  set (c1 := fun r => Submission.primaryKey (Submission.assign s F) r
                      && Submission.matches L r).
  set (c2 := fun r => Submission.primaryKey s r && Submission.matches L r).
  set (g := fun r =>
              let r1 := if c1 r then Submission.assign s r else r in
              if Submission.Score s =? 0
              then if c2 r1 then Submission.setScore r1 0 else r1
              else r1).
  assert (Hc1 : forall r, c1 r = Submission.matches L r).
  { intros r. unfold c1, Submission.primaryKey. rewrite Hout.
    destruct (Submission.matches L r) eqn:E; [|apply andb_false_r].
    rewrite (matches_ID L r HL0 E), condN_refl. reflexivity. }
  assert (Hc2 : forall r, c2 r = Submission.matches L r).
  { intros r. unfold c2, Submission.primaryKey. now rewrite Hs0. }
  exists g. split; [|split; [|split; [|split]]].
  - unfold writeSubmission. fold (key s). rewrite HL.
    unfold FirstOrCreate. rewrite HF. cbv beta iota zeta.
    rewrite Hout. fold c1. fold c2.
    assert (Hmap : forall tbl,
      (if Submission.Score s =? 0
       then Updates c2 (fun r => Submission.setScore r 0)
              (Updates c1 (Submission.assign s) tbl)
       else Updates c1 (Submission.assign s) tbl) = map g tbl).
    { intros tbl. unfold Updates, g.
      destruct (Submission.Score s =? 0); [rewrite map_map|];
        apply map_ext; reflexivity. }
    rewrite <- Hmap. now destruct (Submission.Score s =? 0).
  - intros r. unfold g. cbv zeta.
    assert (H1 : Submission.ID (if c1 r then Submission.assign s r else r)
                 = Submission.ID r).
    { destruct (c1 r); [now apply assign_keeps_ID | reflexivity]. }
    destruct (Submission.Score s =? 0); [|exact H1].
    destruct (c2 _); [|exact H1]. rewrite <- H1. now destruct (if c1 r then _ else _).
  - intros r. unfold g. cbv zeta.
    assert (H1 : Submission.matches (key s)
                   (if c1 r then Submission.assign s r else r)
                 = Submission.matches (key s) r).
    { destruct (c1 r) eqn:E; [|reflexivity].
      rewrite Hc1 in E. rewrite matches_key_assign.
      symmetry. now apply (matches_key_trans s L r). }
    destruct (Submission.Score s =? 0); [|exact H1].
    destruct (c2 _); [|exact H1]. now rewrite matches_key_setScore.
  - unfold g. cbv zeta. rewrite Hc1, matches_refl.
    destruct (N.eqb_spec (Submission.Score s) 0) as [E|E];
      [|apply matches_assign].
    destruct (c2 _); [|apply matches_assign].
    apply matches_setScore_zero; [assumption | apply matches_assign].
  - intros r Hr. unfold g. cbv zeta.
    assert (Hm : Submission.matches L r = false).
    { destruct (Submission.matches L r) eqn:E; [|reflexivity].
      apply (matches_ID L r HL0) in E. contradiction. }
    rewrite Hc1, Hm, Hc2, Hm. now destruct (Submission.Score s =? 0).
Qed.

Lemma matches_setID_self s i :
  Submission.ID s = 0 ->
  Submission.matches s (Submission.setID s i) = true.
Proof.
  intros Hs. unfold Submission.matches. simpl. rewrite Hs.
  now rewrite !condN_refl, !condS_refl, condB_refl, condStatus_refl.
Qed.

Lemma nextID_nonzero tbl : nextID tbl <> 0.
Proof. unfold nextID. lia. Qed.

(** The creation path of [writeSubmission] for a submission that brings no
    identifier. *)
Lemma writeSubmission_creates_fresh db s :
  Submission.ID s = 0 -> rowsFor db s = [] ->
  writeSubmission db s
  = (setSubmissions db
       (submissions db ++ [Submission.setID s (nextID (submissions db))]),
     Submission.setID s (nextID (submissions db)), None).
Proof.
  intros Hs0 Hrows.
  destruct (writeSubmission_creates db s (or_introl Hs0) Hrows)
    as (i & Hw & _).
  assert (Hi : i = nextID (submissions db)).
  { revert Hw. unfold writeSubmission, rowsFor in *. fold (key s).
    unfold Last. rewrite Hrows. cbn [fold_left].
    unfold FirstOrCreate, First. rewrite Hrows. cbn [fold_left].
    rewrite assign_init. unfold Create.
    rewrite (proj2 (N.eqb_eq _ _) Hs0). cbv beta iota zeta.
    destruct (Submission.Score s =? 0); intros Hw;
      apply (f_equal (fun x => Submission.ID (snd (fst x)))) in Hw;
      simpl in Hw; congruence. }
  now rewrite <- Hi.
Qed.

(** What the upsert leaves behind, for both paths: the row [Last] then
    finds for the pair. *)
Lemma CreateSubmission_lookup db s :
  wellShaped s -> referencesExist db s ->
  Submission.ID s = 0 -> identifiersSet db ->
  exists db' r,
    CreateSubmission db s = (db', Submission.setID s (Submission.ID r), None)
    /\ Last (key s) (submissions db') = Some r
    /\ Submission.matches s r = true
    /\ Submission.ID r <> 0
    /\ List.length (submissions db')
       = (List.length (submissions db)
          + match rowsFor db s with [] => 1 | _ :: _ => 0 end)%nat
    /\ (forall x, In x (submissions db) ->
                  Submission.ID x <> Submission.ID r ->
                  In x (submissions db'))
    /\ reviews db' = reviews db
    /\ courses db' = courses db
    /\ assignments db' = assignments db.
Proof.
  intros Hshape Hrefs Hs0 Hset.
  rewrite (CreateSubmission_checked db s Hshape Hrefs).
  destruct (Last (key s) (submissions db)) as [L|] eqn:HL.
  - destruct (Last_latest _ _ _ HL) as [HLin _].
    assert (Hne : rowsFor db s <> [])
      by (unfold rowsFor; intros E; rewrite E in HLin; destruct HLin).
    apply filter_In in HLin. destruct HLin as [HLin _].
    assert (HL0 : Submission.ID L <> 0).
    { unfold identifiersSet in Hset. rewrite Forall_forall in Hset.
      now apply Hset. }
    destruct (writeSubmission_updates db s L Hs0 HL0 HL)
      as (g & Hw & Hid & Hkey & Hm & Hframe).
    exists (setSubmissions db (map g (submissions db))), (g L).
    rewrite Hid. split; [exact Hw|]. simpl submissions.
    split; [|split; [exact Hm|split; [exact HL0|split; [|split]]]].
    + rewrite Last_map; [now rewrite HL | exact Hid | intros; apply Hkey].
    + rewrite length_map. destruct (rowsFor db s); [contradiction|lia].
    + intros x Hx Hne'.
      apply in_map_iff. exists x. split; [now apply Hframe | assumption].
    + repeat split.
  - apply Last_none in HL. fold (rowsFor db s) in HL.
    rewrite (writeSubmission_creates_fresh db s Hs0 HL).
    eexists. exists (Submission.setID s (nextID (submissions db))).
    split; [reflexivity|]. simpl submissions.
    split; [|split; [now apply matches_setID_self|split;
      [apply nextID_nonzero|split; [|split]]]].
    + unfold Last. unfold rowsFor in HL. rewrite filter_app, HL. simpl.
      now rewrite matches_key_self.
    + rewrite length_app, HL. simpl. lia.
    + intros x Hx _. apply in_or_app. now left.
    + repeat split.
Qed.

(** X1: after an upsert of a well-shaped submission that brings no
    identifier and whose references exist, [GetSubmission] on the
    (assignment, owner) query returns a stored row whose identifier is the
    one handed back to the caller and which holds every non-zero field of
    the incoming submission; the table has one row more when the pair had
    none and as many rows as before otherwise; rows with other identifiers
    are still stored. *)
Theorem CreateSubmission_then_GetSubmission :
  forall (db : GormDB) (s : Submission.t),
    wellShaped s -> referencesExist db s ->
    Submission.ID s = 0 -> identifiersSet db ->
    exists db' r,
      CreateSubmission db s
      = (db', Submission.setID s (Submission.ID r), None)
      /\ GetSubmission db' (key s)
         = Ok (r, filter (fun rv => Review.SubmissionID rv
                                    =? Submission.ID r) (reviews db))
      /\ Submission.matches s r = true
      /\ Submission.ID r <> 0
      /\ List.length (submissions db')
         = (List.length (submissions db)
            + match rowsFor db s with [] => 1 | _ :: _ => 0 end)%nat
      /\ (forall x, In x (submissions db) ->
                    Submission.ID x <> Submission.ID r ->
                    In x (submissions db')).
Proof.
  intros db s Hshape Hrefs Hs0 Hset.
  destruct (CreateSubmission_lookup db s Hshape Hrefs Hs0 Hset)
    as (db' & r & HC & HL & Hm & Hr0 & Hlen & Hframe & Hrev & _).
  exists db', r. unfold GetSubmission. rewrite HL, Hrev. auto 10.
Qed.

Lemma CreateSubmission_then_GetSubmission_witness :
  exists db' r,
    CreateSubmission
      (mkDB [User.mk 1 "ann"] [] [Course.mk 1 "dat100"]
            [Assignment.mk 1 1 1]
            [Submission.mk 1 1 1 0 7 "" "build 1" false Status.NONE] [])
      (Submission.mk 0 1 1 0 9 "" "build 2" false Status.NONE)
    = (db',
       Submission.setID
         (Submission.mk 0 1 1 0 9 "" "build 2" false Status.NONE)
         (Submission.ID r), None)
    /\ GetSubmission db'
         (key (Submission.mk 0 1 1 0 9 "" "build 2" false Status.NONE))
       = Ok (r, filter (fun rv => Review.SubmissionID rv =? Submission.ID r)
                       [])
    /\ Submission.matches
         (Submission.mk 0 1 1 0 9 "" "build 2" false Status.NONE) r = true
    /\ Submission.ID r <> 0
    /\ List.length (submissions db') = (1 + 0)%nat
    /\ (forall x,
           In x [Submission.mk 1 1 1 0 7 "" "build 1" false Status.NONE] ->
           Submission.ID x <> Submission.ID r ->
           In x (submissions db')).
Proof.
  apply (CreateSubmission_then_GetSubmission
           (mkDB [User.mk 1 "ann"] [] [Course.mk 1 "dat100"]
                 [Assignment.mk 1 1 1]
                 [Submission.mk 1 1 1 0 7 "" "build 1" false Status.NONE] [])
           (Submission.mk 0 1 1 0 9 "" "build 2" false Status.NONE)).
  - split; [simpl; lia | left; split; [simpl; lia | reflexivity]].
  - split; reflexivity.
  - reflexivity.
  - repeat constructor. discriminate.
Defined.

(** ** Errors of [CreateSubmission] *)

Lemma setSubmissions_same db : setSubmissions db (submissions db) = db.
Proof. now destruct db. Qed.




(** X3: when the pair has no row and the incoming submission brings an
    identifier that a stored row already has, nothing is written and the
    caller's submission is unchanged; the refusal of the insert is
    returned when the incoming score is not 0, and no error at all when it
    is 0, since the result of the forced write replaces it. *)
Theorem CreateSubmission_refused_insert :
  forall (db : GormDB) (s : Submission.t),
    wellShaped s -> referencesExist db s ->
    rowsFor db s = [] ->
    Submission.ID s <> 0 ->
    existsb (fun r => Submission.ID r =? Submission.ID s) (submissions db)
    = true ->
    CreateSubmission db s
    = (db, s,
       if Submission.Score s =? 0 then None else Some duplicateSubmission).
Proof.
  intros db s Hshape Hrefs Hrows Hid Hex.
  rewrite (CreateSubmission_checked db s Hshape Hrefs).
  unfold writeSubmission, rowsFor in *. fold (key s).
  unfold Last. rewrite Hrows. cbn [fold_left].
  unfold FirstOrCreate, First. rewrite Hrows. cbn [fold_left].
  rewrite assign_init. unfold Create.
  rewrite (proj2 (N.eqb_neq _ _) Hid), Hex. cbv beta iota zeta.
  rewrite setID_self.
  destruct (Submission.Score s =? 0).
  - rewrite Updates_id, setSubmissions_same; [reflexivity|].
    intros r Hr Hc. apply andb_true_iff in Hc. destruct Hc as [_ Hm].
    rewrite (filter_nil_inv _ _ _ Hrows Hr) in Hm. discriminate.
  - now rewrite setSubmissions_same.
Qed.

Lemma CreateSubmission_refused_insert_witness :
  CreateSubmission
    (mkDB [User.mk 1 "ann"] [] [] [Assignment.mk 1 1 1]
          [Submission.mk 5 1 2 0 7 "" "" false Status.NONE] [])
    (Submission.mk 5 1 1 0 0 "" "" false Status.NONE)
  = (mkDB [User.mk 1 "ann"] [] [] [Assignment.mk 1 1 1]
          [Submission.mk 5 1 2 0 7 "" "" false Status.NONE] [],
     Submission.mk 5 1 1 0 0 "" "" false Status.NONE,
     if Submission.Score (Submission.mk 5 1 1 0 0 "" "" false Status.NONE)
        =? 0
     then None else Some duplicateSubmission).
Proof.
  apply (CreateSubmission_refused_insert
           (mkDB [User.mk 1 "ann"] [] [] [Assignment.mk 1 1 1]
                 [Submission.mk 5 1 2 0 7 "" "" false Status.NONE] [])
           (Submission.mk 5 1 1 0 0 "" "" false Status.NONE)).
  - split; [simpl; lia | left; split; [simpl; lia | reflexivity]].
  - split; reflexivity.
  - reflexivity.
  - discriminate.
  - reflexivity.
Defined.

(** ** Identifiers under the write operations *)

Lemma keysOK_grownBy ids ids' :
  keysOK ids -> grownBy ids ids' -> keysOK ids'.
Proof.
  intros [Hnd H0] [-> | (i & -> & Hi & Hfresh)]; [now split|].
  split.
  - apply NoDup_app; [assumption | repeat constructor; intros [] |].
    intros x Hx [<- | []]. contradiction.
  - intros Hin. apply in_app_or in Hin.
    destruct Hin as [Hin | [Hin | []]]; [contradiction | congruence].
Qed.

Lemma Create_grownBy tbl row :
  grownBy (map Submission.ID tbl)
          (map Submission.ID (fst (fst (Create tbl row)))).
Proof.
  unfold Create. destruct (N.eqb_spec (Submission.ID row) 0) as [E|E].
  - right. exists (nextID tbl). simpl. rewrite map_app. simpl.
    split; [now destruct row|]. split; [apply nextID_nonzero|].
    intros Hin. apply in_map_iff in Hin. destruct Hin as (r & Hr & Hin).
    apply nextID_fresh in Hin. lia.
  - destruct (existsb (fun r => Submission.ID r =? Submission.ID row) tbl)
      eqn:Ex; [now left|].
    right. exists (Submission.ID row). simpl. rewrite map_app.
    split; [reflexivity|]. split; [assumption|].
    intros Hin. apply in_map_iff in Hin. destruct Hin as (r & Hr & Hin).
    assert (Ht : existsb (fun r0 => Submission.ID r0 =? Submission.ID row)
                         tbl = true).
    { apply existsb_exists. exists r. split; [assumption|].
      now apply N.eqb_eq. }
    congruence.
Qed.

Lemma FirstOrCreate_grownBy tbl query attrs :
  grownBy (map Submission.ID tbl)
          (map Submission.ID (fst (fst (FirstOrCreate tbl query attrs)))).
Proof.
  unfold FirstOrCreate.
  destruct (First query tbl) as [found|]; [|apply Create_grownBy].
  left. simpl. apply Updates_keeps.
  intros r Hc. apply andb_true_iff in Hc. destruct Hc as [Hpk _].
  unfold Submission.primaryKey, Submission.assign in *. simpl in *.
  unfold Field.setN in *.
  destruct (N.eqb_spec (Submission.ID attrs) 0) as [E|E]; [reflexivity|].
  apply condN_true in Hpk. destruct Hpk as [Hpk|Hpk]; congruence.
Qed.

Lemma writeSubmission_grownBy db s :
  grownBy (map Submission.ID (submissions db))
          (map Submission.ID
               (submissions (fst (fst (writeSubmission db s))))).
Proof.
  unfold writeSubmission.
  set (query := match Last _ (submissions db) with
                | Some row => row
                | None => _
                end).
  pose proof (FirstOrCreate_grownBy (submissions db) query s) as HF.
  destruct (FirstOrCreate (submissions db) query s) as [[tbl lab] err].
  simpl in HF.
  destruct (Submission.Score s =? 0); simpl; [|exact HF].
  rewrite Updates_keeps; [exact HF|]. intros r _. now destruct r.
Qed.

Lemma CreateSubmission_grownBy db s :
  grownBy (map Submission.ID (submissions db))
          (map Submission.ID
               (submissions (fst (fst (CreateSubmission db s))))).
Proof.
  pose proof (writeSubmission_grownBy db s) as Hw.
  unfold CreateSubmission.
  destruct (Submission.AssignmentID s <? 1); [now left|].
  destruct ((0 <? Submission.UserID s) && (0 <? Submission.GroupID s));
    [now left|].
  destruct (0 <? Submission.UserID s).
  - unfold CountModel, FirstUser. simpl Error.
    destruct (existsb _ (users db)); [|now left].
    cbv beta iota. destruct (negb _); [now left | exact Hw].
  - destruct (0 <? Submission.GroupID s); [|now left].
    unfold CountModel, FirstGroup. simpl Error.
    destruct (existsb _ (groups db)); [|now left].
    cbv beta iota. destruct (negb _); [now left | exact Hw].
Qed.

Lemma UpdateSubmission_grownBy db q :
  grownBy (map Submission.ID (submissions db))
          (map Submission.ID
               (submissions (fst (fst (UpdateSubmission db q)))))
  /\ reviews (fst (fst (UpdateSubmission db q))) = reviews db.
Proof.
  unfold UpdateSubmission, Save.
  pose proof (Create_grownBy (submissions db) q) as HC.
  destruct (Submission.ID q =? 0).
  - destruct (Create (submissions db) q) as [[tbl q'] err]. now split.
  - destruct (existsb _ (submissions db)).
    + simpl. split; [|reflexivity]. left. apply Updates_keeps.
      intros r Hr. apply N.eqb_eq in Hr. now symmetry.
    + destruct (Create (submissions db) q) as [[tbl q'] err]. now split.
Qed.

Lemma nextReviewID_fresh tbl r :
  In r tbl -> Review.ID r < nextReviewID tbl.
Proof.
  unfold nextReviewID. induction tbl as [|x tbl IH]; cbn [fold_right In];
    intros H; [destruct H|].
  destruct H as [-> | H]; [lia|]. specialize (IH H). lia.
Qed.

Lemma CreateReview_grownBy db q :
  grownBy (map Review.ID (reviews db))
          (map Review.ID (reviews (fst (fst (CreateReview db q)))))
  /\ submissions (fst (fst (CreateReview db q))) = submissions db.
Proof.
  unfold CreateReview. destruct (N.eqb_spec (Review.ID q) 0) as [E|E].
  - simpl. split; [|reflexivity]. right. exists (nextReviewID (reviews db)).
    rewrite map_app. split; [reflexivity|].
    split; [unfold nextReviewID; lia|].
    intros Hin. apply in_map_iff in Hin. destruct Hin as (r & Hr & Hin).
    apply nextReviewID_fresh in Hin. lia.
  - destruct (existsb (fun r => Review.ID r =? Review.ID q) (reviews db))
      eqn:Ex; simpl; [split; [now left | reflexivity]|].
    split; [|reflexivity]. right. exists (Review.ID q). rewrite map_app.
    split; [reflexivity|]. split; [assumption|].
    intros Hin. apply in_map_iff in Hin. destruct Hin as (r & Hr & Hin).
    assert (Ht : existsb (fun r0 => Review.ID r0 =? Review.ID q)
                         (reviews db) = true).
    { apply existsb_exists. exists r. split; [assumption|].
      now apply N.eqb_eq. }
    congruence.
Qed.

Lemma UpdateReview_ids db q :
  map Review.ID (reviews (fst (UpdateReview db q)))
  = map Review.ID (reviews db).
Proof.
  unfold UpdateReview. simpl. apply Updates_keeps. intros r _.
  unfold Review.assign. simpl. reflexivity.
Qed.

Lemma UpdateSubmissions_ids db courseID q :
  map Submission.ID (submissions (fst (UpdateSubmissions db courseID q)))
  = map Submission.ID (submissions db).
Proof.
  unfold UpdateSubmissions. simpl. apply Updates_keeps. intros r _.
  unfold Submission.assign. simpl. reflexivity.
Qed.

Lemma keysOK_filter {A : Type} (key : A -> N) (p : A -> bool) tbl :
  keysOK (map key tbl) -> keysOK (map key (filter p tbl)).
Proof.
  intros [Hnd H0]. split.
  - induction tbl as [|x tbl IH]; simpl in *; [constructor|].
    inversion Hnd as [|y l Hnotin Hnd']; subst.
    assert (H0' : ~ In 0 (map key tbl)) by (intros H; apply H0; now right).
    destruct (p x); simpl; [|now apply IH].
    constructor; [|now apply IH].
    intros Hin. apply Hnotin. apply in_map_iff in Hin.
    destruct Hin as (r & Hr & Hin). apply filter_In in Hin.
    apply in_map_iff. exists r. tauto.
  - intros Hin. apply H0. apply in_map_iff in Hin.
    destruct Hin as (r & Hr & Hin). apply filter_In in Hin.
    apply in_map_iff. exists r. tauto.
Qed.

(** X4: every write operation of the layer keeps the identifiers of the
    submissions and of the reviews pairwise distinct and set. *)
Theorem writes_keep_storeKeys :
  forall (db : GormDB),
    storeKeys db ->
    (forall s, storeKeys (fst (fst (CreateSubmission db s))))
    /\ (forall q, storeKeys (fst (fst (UpdateSubmission db q))))
    /\ (forall courseID q, storeKeys (fst (UpdateSubmissions db courseID q)))
    /\ (forall q, storeKeys (fst (fst (CreateReview db q))))
    /\ (forall q, storeKeys (fst (UpdateReview db q)))
    /\ (forall q, storeKeys (fst (DeleteReview db q))).
Proof.
  intros db [HS HR]. unfold storeKeys.
  split; [|split; [|split; [|split; [|split]]]].
  - intros s. destruct (CreateSubmission_keeps_keys db s)
      as ((_ & _ & _ & _ & Hrev) & _).
    rewrite Hrev. split; [|assumption].
    exact (keysOK_grownBy _ _ HS (CreateSubmission_grownBy db s)).
  - intros q. destruct (UpdateSubmission_grownBy db q) as [Hg Hrev].
    rewrite Hrev. split; [|assumption].
    exact (keysOK_grownBy _ _ HS Hg).
  - intros courseID q. rewrite UpdateSubmissions_ids. now split.
  - intros q. destruct (CreateReview_grownBy db q) as [Hg Hsub].
    rewrite Hsub. split; [assumption|].
    exact (keysOK_grownBy _ _ HR Hg).
  - intros q. rewrite UpdateReview_ids. now split.
  - intros q. simpl. split; [assumption|]. now apply keysOK_filter.
Qed.

Lemma writes_keep_storeKeys_witness :
  storeKeys
    (fst (fst (CreateSubmission
                 (mkDB [User.mk 1 "ann"] [] [] [Assignment.mk 1 1 1]
                       [Submission.mk 5 1 2 0 7 "" "" false Status.NONE]
                       [Review.mk 3 5 7 "old" "" false 0])
                 (Submission.mk 0 1 1 0 3 "" "" false Status.NONE)))).
Proof.
  apply (writes_keep_storeKeys
           (mkDB [User.mk 1 "ann"] [] [] [Assignment.mk 1 1 1]
                 [Submission.mk 5 1 2 0 7 "" "" false Status.NONE]
                 [Review.mk 3 5 7 "old" "" false 0])).
  split; (split; [repeat constructor; simpl; tauto
                 | simpl; intros [H | []]; discriminate]).
Defined.

(** X5: no write operation changes or removes the identifier of a stored
    submission, and none but [DeleteReview] that of a stored review: the
    upsert and [UpdateSubmission] leave the column of identifiers as it was
    or append one fresh identifier, [CreateReview] does the same for
    reviews, and the two bulk updates leave the columns as they were. *)
Theorem writes_keep_identifiers :
  forall (db : GormDB),
    (forall s,
        grownBy (map Submission.ID (submissions db))
          (map Submission.ID
               (submissions (fst (fst (CreateSubmission db s))))))
    /\ (forall q,
           grownBy (map Submission.ID (submissions db))
             (map Submission.ID
                  (submissions (fst (fst (UpdateSubmission db q))))))
    /\ (forall courseID q,
           map Submission.ID
               (submissions (fst (UpdateSubmissions db courseID q)))
           = map Submission.ID (submissions db))
    /\ (forall q,
           grownBy (map Review.ID (reviews db))
             (map Review.ID (reviews (fst (fst (CreateReview db q))))))
    /\ (forall q,
           map Review.ID (reviews (fst (UpdateReview db q)))
           = map Review.ID (reviews db)).
Proof.
  intros db. split; [|split; [|split; [|split]]].
  - apply CreateSubmission_grownBy.
  - intros q. apply UpdateSubmission_grownBy.
  - apply UpdateSubmissions_ids.
  - intros q. apply CreateReview_grownBy.
  - apply UpdateReview_ids.
Qed.

(** ** [UpdateSubmission] *)

Lemma matches_byID i r :
  Submission.matches (byID i) r = Field.condN i (Submission.ID r).
Proof.
  unfold Submission.matches, byID. simpl. now rewrite !andb_true_r.
Qed.

Lemma Last_only q tbl v :
  In v tbl -> Submission.matches q v = true ->
  (forall r, In r tbl -> Submission.matches q r = true -> r = v) ->
  Last q tbl = Some v.
Proof.
  intros Hin Hm Honly. destruct (Last q tbl) as [s|] eqn:E.
  - apply Last_latest in E. destruct E as [E _]. apply filter_In in E.
    f_equal. now apply Honly.
  - apply Last_none in E.
    rewrite (filter_nil_inv _ _ _ E Hin) in Hm. discriminate.
Qed.

(** X6: [UpdateSubmission] reports no error and stores the submission as
    it is given, zero-valued fields included: the lookup by the identifier
    of the returned submission yields exactly that submission.  A
    submission without identifier is inserted under a fresh one, one with
    an identifier keeps it; rows with other identifiers are still
    stored. *)
Theorem UpdateSubmission_then_GetSubmission :
  forall (db : GormDB) (q : Submission.t),
    exists db' q',
      UpdateSubmission db q = (db', q', None)
      /\ q' = Submission.setID q (Submission.ID q')
      /\ Submission.ID q' <> 0
      /\ (if Submission.ID q =? 0
          then ~ In (Submission.ID q') (map Submission.ID (submissions db))
          else q' = q)
      /\ GetSubmission db' (byID (Submission.ID q'))
         = Ok (q', filter (fun rv => Review.SubmissionID rv
                                     =? Submission.ID q') (reviews db))
      /\ (forall x, In x (submissions db) ->
                    Submission.ID x <> Submission.ID q' ->
                    In x (submissions db')).
Proof.
  intros db q. unfold UpdateSubmission, Save, Create.
  assert (Hlook : forall tbl v,
    Submission.ID v <> 0 -> In v tbl ->
    (forall r, In r tbl -> Submission.ID r = Submission.ID v -> r = v) ->
    GetSubmission (setSubmissions db tbl) (byID (Submission.ID v))
    = Ok (v, filter (fun rv => Review.SubmissionID rv =? Submission.ID v)
                    (reviews db))).
  { intros tbl v Hv Hin Honly. unfold GetSubmission. simpl.
    rewrite (Last_only (byID (Submission.ID v)) tbl v); [reflexivity|assumption| |].
    - rewrite matches_byID. apply condN_refl.
    - intros r Hr Hm. rewrite matches_byID in Hm. apply condN_true in Hm.
      destruct Hm as [Hm|Hm]; [contradiction|]. now apply Honly. }
  destruct (N.eqb_spec (Submission.ID q) 0) as [E|E].
  - set (v := Submission.setID q (nextID (submissions db))).
    assert (Hfresh : ~ In (nextID (submissions db))
                          (map Submission.ID (submissions db))).
    { intros Hin. apply in_map_iff in Hin. destruct Hin as (r & Hr & Hin).
      apply nextID_fresh in Hin. lia. }
    exists (setSubmissions db (submissions db ++ [v])), v.
    split; [reflexivity|]. split; [now destruct q|].
    split; [apply nextID_nonzero|]. split; [exact Hfresh|]. split.
    + apply Hlook.
      * apply nextID_nonzero.
      * apply in_or_app. right. now left.
      * intros r Hr Hid. apply in_app_or in Hr.
        destruct Hr as [Hr | [<- | []]]; [|reflexivity].
        exfalso. apply Hfresh. simpl in Hid. rewrite <- Hid.
        now apply in_map.
    + intros x Hx _. simpl. apply in_or_app. now left.
  - destruct (existsb (fun r => Submission.ID r =? Submission.ID q)
                      (submissions db)) eqn:Ex.
    + exists (setSubmissions db
                (Updates (fun r => Submission.ID r =? Submission.ID q)
                         (fun _ => q) (submissions db))), q.
      split; [reflexivity|]. split; [now rewrite setID_self|].
      split; [assumption|]. split; [reflexivity|]. split.
      * apply Hlook; [assumption| |].
        -- apply existsb_exists in Ex. destruct Ex as (r & Hr & Hid).
           unfold Updates. apply in_map_iff. exists r. now rewrite Hid.
        -- intros r Hr Hid. unfold Updates in Hr. apply in_map_iff in Hr.
           destruct Hr as (r0 & Hr0 & _).
           destruct (N.eqb_spec (Submission.ID r0) (Submission.ID q));
             congruence.
      * intros x Hx Hne. simpl. unfold Updates. apply in_map_iff.
        exists x. split; [|assumption].
        destruct (N.eqb_spec (Submission.ID x) (Submission.ID q));
          [contradiction | reflexivity].
    + exists (setSubmissions db (submissions db ++ [q])), q.
      split; [reflexivity|]. split; [now rewrite setID_self|].
      split; [assumption|]. split; [reflexivity|]. split.
      * apply Hlook; [assumption | apply in_or_app; right; now left |].
        intros r Hr Hid. apply in_app_or in Hr.
        destruct Hr as [Hr | [<- | []]]; [|reflexivity].
        exfalso.
        assert (Ht : existsb (fun r0 => Submission.ID r0 =? Submission.ID q)
                             (submissions db) = true).
        { apply existsb_exists. exists r. split; [assumption|].
          now apply N.eqb_eq. }
        congruence.
      * intros x Hx _. simpl. apply in_or_app. now left.
Qed.

(** ** [UpdateSubmissions], for any query *)

Lemma setN_idem v o : Field.setN v (Field.setN v o) = Field.setN v o.
Proof. unfold Field.setN. now destruct (v =? 0). Qed.

Lemma setS_idem v o : Field.setS v (Field.setS v o) = Field.setS v o.
Proof. unfold Field.setS. now destruct (v =? "")%string. Qed.

Lemma setB_idem v o : Field.setB v (Field.setB v o) = Field.setB v o.
Proof. now destruct v. Qed.

Lemma setStatus_idem v o :
  Field.setStatus v (Field.setStatus v o) = Field.setStatus v o.
Proof. now destruct v. Qed.

Lemma Updates_twice {A : Type} (cond : A -> bool) (f : A -> A) tbl :
  (forall r, f (f r) = f r) ->
  Updates cond f (Updates cond f tbl) = Updates cond f tbl.
Proof.
  intros Hf. unfold Updates. rewrite map_map. apply map_ext. intros r.
  destruct (cond r) eqn:E; [|now rewrite E].
  destruct (cond (f r)); [apply Hf | reflexivity].
Qed.

(** X7: the two bulk updates are idempotent: running [UpdateSubmissions],
    or [UpdateReview], a second time with the same query leaves the tables
    as the first run left them. *)
Theorem bulk_updates_idempotent :
  forall (db : GormDB),
    (forall courseID (q : Submission.t),
        UpdateSubmissions (fst (UpdateSubmissions db courseID q)) courseID q
        = UpdateSubmissions db courseID q)
    /\ (forall q : Review.t,
           UpdateReview (fst (UpdateReview db q)) q = UpdateReview db q).
Proof.
  intros db. split.
  - intros courseID q. unfold UpdateSubmissions. simpl.
    rewrite Updates_twice; [reflexivity|].
    intros r. unfold Submission.assign. simpl.
    now rewrite setB_idem, setStatus_idem.
  - intros q. unfold UpdateReview. simpl.
    rewrite Updates_twice; [reflexivity|].
    intros r. unfold Review.assign.
    cbn [Review.ID Review.SubmissionID Review.ReviewerID Review.Feedback
         Review.Review Review.Ready Review.Score].
    now rewrite !setN_idem, !setS_idem, setB_idem.
Qed.

(** X8: whatever query [UpdateSubmissions] is given, every stored row keeps
    its identifier, references, score and test results, a released row
    stays released, and the status stays or becomes the query's; a row is
    left entirely as it is when the query carries another identifier, when
    it belongs to another assignment, or when its score is below the
    query's.  The other tables are untouched and no error is reported. *)
Theorem UpdateSubmissions_row_by_row :
  forall (db : GormDB) (courseID : N) (q : Submission.t),
    exists tbl,
      UpdateSubmissions db courseID q = (setSubmissions db tbl, None)
      /\ Forall2 (updatedRow q) (submissions db) tbl.
Proof.
  intros db courseID q. eexists. split; [reflexivity|].
  unfold Updates. induction (submissions db) as [|r tbl IH]; simpl;
    constructor; [|exact IH].
  unfold updatedRow.
  destruct (Submission.primaryKey q r
            && (Submission.AssignmentID r =? Submission.AssignmentID q)
            && (Submission.Score q <=? Submission.Score r)) eqn:Hc.
  - unfold Submission.assign. simpl.
    repeat split; try reflexivity.
    + intros ->. now destruct (Submission.Released q).
    + destruct (Submission.Status q); auto.
    + apply andb_true_iff in Hc. destruct Hc as [Hc Hs].
      apply andb_true_iff in Hc. destruct Hc as [Hpk Ha].
      apply condN_true in Hpk. apply N.eqb_eq in Ha. apply N.leb_le in Hs.
      intros [[H1 H2] | [H | H]]; [|contradiction|lia].
      destruct Hpk; congruence.
  - repeat split; auto.
Qed.

(** ** Reviews: create, update, delete, and what [GetSubmission] shows *)

Lemma CreateReview_appends db q :
  reviewAvailable db q ->
  exists q',
    CreateReview db q = (setReviews db (reviews db ++ [q']), q', None)
    /\ q' = setReviewID q (Review.ID q')
    /\ Review.ID q' <> 0
    /\ ~ In (Review.ID q') (map Review.ID (reviews db)).
Proof.
  intros Hav. unfold CreateReview.
  destruct (N.eqb_spec (Review.ID q) 0) as [E|E].
  - exists (setReviewID q (nextReviewID (reviews db))).
    split; [reflexivity|]. split; [reflexivity|]. simpl.
    split; [unfold nextReviewID; lia|].
    intros Hin. apply in_map_iff in Hin. destruct Hin as (r & Hr & Hin).
    apply nextReviewID_fresh in Hin. lia.
  - destruct Hav as [Hav | [_ Hav]]; [contradiction|]. rewrite Hav.
    exists q. split; [reflexivity|]. split; [now destruct q|].
    split; [assumption|].
    intros Hin. apply in_map_iff in Hin. destruct Hin as (r & Hr & Hin).
    assert (Ht : existsb (fun r0 => Review.ID r0 =? Review.ID q)
                         (reviews db) = true).
    { apply existsb_exists. exists r. split; [assumption|].
      now apply N.eqb_eq. }
    congruence.
Qed.

(** X9: a review that brings no identifier, or an unused one, is stored
    under an identifier that is set and that no stored review had: the
    reviews table holds the reviews it held and the new one, the
    submissions are untouched, and [GetSubmission] then returns the
    submission the review refers to with the reviews it had and the new
    one, in some order, and any other submission with the reviews it had.
    A review whose identifier is taken is refused, and nothing changes. *)
Theorem CreateReview_then_GetSubmission :
  forall (db : GormDB) (q : Review.t),
    (reviewAvailable db q ->
     exists db' q',
       CreateReview db q = (db', q', None)
       /\ q' = setReviewID q (Review.ID q')
       /\ Review.ID q' <> 0
       /\ ~ In (Review.ID q') (map Review.ID (reviews db))
       /\ Permutation (q' :: reviews db) (reviews db')
       /\ submissions db' = submissions db
       /\ forall query s rs,
            GetSubmission db query = Ok (s, rs) ->
            exists rs',
              GetSubmission db' query = Ok (s, rs')
              /\ Permutation
                   (if Review.SubmissionID q =? Submission.ID s
                    then q' :: rs else rs)
                   rs')
    /\ (Review.ID q <> 0 ->
        existsb (fun r => Review.ID r =? Review.ID q) (reviews db) = true ->
        exists e, CreateReview db q = (db, q, Some e)).
Proof.
  intros db q. split.
  - intros Hav.
    destruct (CreateReview_appends db q Hav) as (q' & HC & Hq' & H0 & Hf).
    exists (setReviews db (reviews db ++ [q'])), q'.
    split; [exact HC|]. split; [exact Hq'|]. split; [exact H0|].
    split; [exact Hf|]. split; [apply Permutation_cons_append|].
    split; [reflexivity|].
    intros query s rs. unfold GetSubmission. simpl.
    destruct (Last query (submissions db)) as [s0|]; [|discriminate].
    intros H. inversion H; subst. eexists. split; [reflexivity|].
    rewrite filter_app. simpl.
    assert (Hsub : Review.SubmissionID q' = Review.SubmissionID q)
      by (rewrite Hq'; reflexivity).
    rewrite Hsub.
    destruct (Review.SubmissionID q =? Submission.ID s).
    + apply Permutation_cons_append.
    + rewrite app_nil_r. apply Permutation_refl.
  - intros Hid Hex. unfold CreateReview.
    rewrite (proj2 (N.eqb_neq _ _) Hid), Hex. eexists. reflexivity.
Qed.

Lemma CreateReview_then_GetSubmission_witness :
  exists db' q',
    CreateReview
      (mkDB [] [] [] [] [Submission.mk 5 1 2 0 7 "" "" false Status.NONE]
            [Review.mk 3 5 7 "old" "" false 0])
      (Review.mk 0 5 8 "fine" "" true 40)
    = (db', q', None)
    /\ q' = setReviewID (Review.mk 0 5 8 "fine" "" true 40) (Review.ID q')
    /\ Review.ID q' <> 0
    /\ ~ In (Review.ID q') (map Review.ID [Review.mk 3 5 7 "old" "" false 0])
    /\ Permutation (q' :: [Review.mk 3 5 7 "old" "" false 0]) (reviews db')
    /\ submissions db' = [Submission.mk 5 1 2 0 7 "" "" false Status.NONE]
    /\ forall query s rs,
         GetSubmission
           (mkDB [] [] [] []
                 [Submission.mk 5 1 2 0 7 "" "" false Status.NONE]
                 [Review.mk 3 5 7 "old" "" false 0]) query = Ok (s, rs) ->
         exists rs',
           GetSubmission db' query = Ok (s, rs')
           /\ Permutation
                (if 5 =? Submission.ID s then q' :: rs else rs) rs'.
Proof.
  apply (proj1 (CreateReview_then_GetSubmission
                  (mkDB [] [] [] []
                        [Submission.mk 5 1 2 0 7 "" "" false Status.NONE]
                        [Review.mk 3 5 7 "old" "" false 0])
                  (Review.mk 0 5 8 "fine" "" true 40))).
  left. reflexivity.
Defined.

Lemma setReviews_twice db a b :
  setReviews (setReviews db a) b = setReviews db b.
Proof. reflexivity. Qed.

(** X10: after a review has been created, [UpdateReview] with the review
    as returned and new content changes that review alone: the reviews
    stored before keep every field, and the new review receives the
    non-zero content fields. *)
Theorem CreateReview_then_UpdateReview :
  forall (db : GormDB) (q : Review.t) (feedback review : string)
         (ready : bool) (score : N),
    reviewAvailable db q ->
    exists db' q',
      CreateReview db q = (db', q', None)
      /\ UpdateReview db'
           (Review.mk (Review.ID q') (Review.SubmissionID q')
                      (Review.ReviewerID q') feedback review ready score)
         = (setReviews db
              (reviews db
               ++ [Review.assign
                     (Review.mk 0 0 0 feedback review ready score) q']),
            None).
Proof.
  intros db q feedback review ready score Hav.
  destruct (CreateReview_appends db q Hav) as (q' & HC & _ & H0 & Hf).
  exists (setReviews db (reviews db ++ [q'])), q'.
  split; [exact HC|].
  unfold UpdateReview. simpl. rewrite setReviews_twice. do 2 f_equal.
  unfold Updates. rewrite map_app. simpl. f_equal.
  - transitivity (map (fun r => r) (reviews db)); [|apply map_id].
    apply map_ext_in. intros r Hr.
    assert (Hne : Review.ID r <> Review.ID q').
    { intros E. apply Hf. rewrite <- E. now apply in_map. }
    unfold Review.primaryKey, Field.condN. simpl.
    rewrite (proj2 (N.eqb_neq _ _) H0).
    rewrite (proj2 (N.eqb_neq _ _) (fun E => Hne (eq_sym E))).
    reflexivity.
  - unfold Review.primaryKey, Review.matches.
    cbn [Review.ID Review.SubmissionID Review.ReviewerID Review.Feedback
         Review.Review Review.Ready Review.Score].
    now rewrite !condN_refl.
Qed.

Lemma CreateReview_then_UpdateReview_witness :
  exists db' q',
    CreateReview
      (mkDB [] [] [] [] [] [Review.mk 3 5 7 "old" "" false 0])
      (Review.mk 0 5 8 "draft" "" false 0)
    = (db', q', None)
    /\ UpdateReview db'
         (Review.mk (Review.ID q') (Review.SubmissionID q')
                    (Review.ReviewerID q') "final" "" true 40)
       = (setReviews
            (mkDB [] [] [] [] [] [Review.mk 3 5 7 "old" "" false 0])
            ([Review.mk 3 5 7 "old" "" false 0]
             ++ [Review.assign (Review.mk 0 0 0 "final" "" true 40) q']),
          None).
Proof.
  apply (CreateReview_then_UpdateReview
           (mkDB [] [] [] [] [] [Review.mk 3 5 7 "old" "" false 0])
           (Review.mk 0 5 8 "draft" "" false 0) "final" "" true 40).
  left. reflexivity.
Defined.

Lemma filter_filter_and {A : Type} (p q : A -> bool) l :
  filter p (filter q l) = filter (fun x => p x && q x) l.
Proof.
  induction l as [|x l IH]; simpl; [reflexivity|].
  destruct (q x); simpl; rewrite IH;
    [now rewrite andb_true_r | now rewrite andb_false_r].
Qed.

(** X11: [DeleteReview] with a query that sets the submission reference
    alone removes the reviews of that submission and no others:
    afterwards [GetSubmission] returns that submission without reviews and
    every other submission with the reviews it had; the submissions are
    untouched, no error is reported, and deleting again changes
    nothing. *)
Theorem DeleteReview_of_submission :
  forall (db : GormDB) (submissionID : N),
    submissionID <> 0 ->
    exists db',
      DeleteReview db (reviewsOf submissionID) = (db', None)
      /\ submissions db' = submissions db
      /\ reviews db'
         = filter (fun r => negb (Review.SubmissionID r =? submissionID))
                  (reviews db)
      /\ (forall query s rs,
             GetSubmission db query = Ok (s, rs) ->
             GetSubmission db' query
             = Ok (s, if Submission.ID s =? submissionID then [] else rs))
      /\ DeleteReview db' (reviewsOf submissionID) = (db', None).
Proof.
  intros db sid Hsid.
  assert (Hm : forall r,
    negb (Review.matches (reviewsOf sid) r)
    = negb (Review.SubmissionID r =? sid)).
  { intros r. unfold Review.matches, reviewsOf.
    cbn [Review.ID Review.SubmissionID Review.ReviewerID Review.Feedback
         Review.Review Review.Ready Review.Score].
    change (Field.condS "" (Review.Feedback r)) with true.
    change (Field.condS "" (Review.Review r)) with true.
    change (Field.condB false (Review.Ready r)) with true.
    rewrite !condN_zero, !andb_true_r. unfold Field.condN.
    rewrite (proj2 (N.eqb_neq _ _) Hsid). simpl.
    now rewrite N.eqb_sym. }
  exists (setReviews db
            (filter (fun r => negb (Review.SubmissionID r =? sid))
                    (reviews db))).
  assert (HD : forall d, DeleteReview d (reviewsOf sid)
    = (setReviews d (filter (fun r => negb (Review.SubmissionID r =? sid))
                            (reviews d)), None)).
  { intros d. unfold DeleteReview. do 2 f_equal.
    apply filter_ext. exact Hm. }
  split; [apply HD|]. split; [reflexivity|]. split; [reflexivity|]. split.
  - intros query s rs. unfold GetSubmission. simpl.
    destruct (Last query (submissions db)) as [s0|]; [|discriminate].
    intros H. inversion H; subst. f_equal. f_equal.
    rewrite filter_filter_and.
    destruct (N.eqb_spec (Submission.ID s) sid) as [E|E].
    + apply filter_nil. intros r _. subst sid.
      now destruct (Review.SubmissionID r =? Submission.ID s).
    + apply filter_ext. intros r.
      destruct (N.eqb_spec (Review.SubmissionID r) (Submission.ID s))
        as [E1|E1]; [|reflexivity].
      rewrite E1. now rewrite (proj2 (N.eqb_neq _ _) E).
  - rewrite HD. simpl. rewrite setReviews_twice. do 2 f_equal.
    rewrite filter_filter_and. apply filter_ext. intros r.
    now destruct (Review.SubmissionID r =? sid).
Qed.

Lemma DeleteReview_of_submission_witness :
  exists db',
    DeleteReview
      (mkDB [] [] [] [] [Submission.mk 5 1 2 0 7 "" "" false Status.NONE]
            [Review.mk 3 5 7 "old" "" false 0;
             Review.mk 4 6 7 "other" "" false 0])
      (reviewsOf 5)
    = (db', None)
    /\ submissions db' = [Submission.mk 5 1 2 0 7 "" "" false Status.NONE]
    /\ reviews db'
       = filter (fun r => negb (Review.SubmissionID r =? 5))
                [Review.mk 3 5 7 "old" "" false 0;
                 Review.mk 4 6 7 "other" "" false 0]
    /\ (forall query s rs,
           GetSubmission
             (mkDB [] [] [] []
                   [Submission.mk 5 1 2 0 7 "" "" false Status.NONE]
                   [Review.mk 3 5 7 "old" "" false 0;
                    Review.mk 4 6 7 "other" "" false 0]) query
           = Ok (s, rs) ->
           GetSubmission db' query
           = Ok (s, if Submission.ID s =? 5 then [] else rs))
    /\ DeleteReview db' (reviewsOf 5) = (db', None).
Proof.
  apply (DeleteReview_of_submission
           (mkDB [] [] [] []
                 [Submission.mk 5 1 2 0 7 "" "" false Status.NONE]
                 [Review.mk 3 5 7 "old" "" false 0;
                  Review.mk 4 6 7 "other" "" false 0]) 5).
  discriminate.
Defined.

(** ** The lookups *)

Lemma GetLastSubmissions_course db courseID q :
  GetLastSubmissions db courseID q
  = match find (fun c => Course.ID c =? courseID) (courses db) with
    | Some _ =>
        Ok (flat_map (found (GetSubmission db) q)
              (filter (fun a => Assignment.CourseID a =? courseID)
                      (assignments db)))
    | None => Err ErrRecordNotFound
    end.
Proof.
  unfold GetLastSubmissions, FirstCourse.
  destruct (find (fun c => Course.ID c =? courseID) (courses db))
    as [c|] eqn:E; [|reflexivity].
  apply find_some in E. destruct E as [_ E]. apply N.eqb_eq in E.
  rewrite E. apply lastSubmissionsLoop_all.
  intros a _. apply GetSubmission_never_aborts.
Qed.

Section LoopOutcomes.

Variable getSubmission :
  Submission.t -> result (Submission.t * list Review.t).

Lemma found_at_most_one q cas :
  (List.length (flat_map (found getSubmission q) cas)
   <= List.length cas)%nat.
Proof.
  induction cas as [|a cas IH]; simpl; [lia|].
  rewrite length_app. unfold found at 1.
  destruct (lookupFor getSubmission q a); simpl; lia.
Qed.

(** Either no lookup aborts, or there is a first one that does. *)
Lemma first_abort q cas :
  (forall a, In a cas -> aborts getSubmission q a = None)
  \/ exists pre a post e,
       cas = pre ++ a :: post
       /\ (forall b, In b pre -> aborts getSubmission q b = None)
       /\ aborts getSubmission q a = Some e.
Proof.
  induction cas as [|a cas IH].
  - left. intros a [].
  - destruct (aborts getSubmission q a) as [e|] eqn:Ea.
    + right. exists [], a, cas, e. split; [reflexivity|].
      split; [intros b []|assumption].
    + destruct IH as [IH | (pre & a' & post & e & -> & Hpre & Ha')].
      * left. intros b [<- | Hb]; [assumption | now apply IH].
      * right. exists (a :: pre), a', post, e. split; [reflexivity|].
        split; [|assumption].
        intros b [<- | Hb]; [assumption | now apply Hpre].
Qed.

End LoopOutcomes.

(** X13: whatever the course lookup and the per-assignment lookup yield,
    [GetLastSubmissions] returns a list only when the course was found and
    no lookup reported an error other than not-found, and the list then
    holds the submissions found, in the order of the course's assignments,
    at most one per assignment; when it returns an error, that error is
    the course lookup's, or it is the first error other than not-found
    among the lookups, every lookup before it having found its submission
    or reported not-found.  On the tables the function is
    [GetLastSubmissions] as given above. *)
Theorem GetLastSubmissions_outcomes :
  (forall db courseID q,
      GetLastSubmissionsWith (FirstCourse db) (GetSubmission db) courseID q
      = GetLastSubmissions db courseID q)
  /\ forall (firstCourse : N -> result (Course.t * list Assignment.t))
            (getSubmission :
               Submission.t -> result (Submission.t * list Review.t))
            (courseID : N) (q : Submission.t),
       match GetLastSubmissionsWith firstCourse getSubmission courseID q with
       | Ok l =>
           exists c cas,
             firstCourse courseID = Ok (c, cas)
             /\ (forall a, In a cas -> aborts getSubmission q a = None)
             /\ l = flat_map (found getSubmission q) cas
             /\ (List.length l <= List.length cas)%nat
       | Err e =>
           firstCourse courseID = Err e
           \/ exists c pre a post,
                firstCourse courseID = Ok (c, pre ++ a :: post)
                /\ (forall b, In b pre -> aborts getSubmission q b = None)
                /\ aborts getSubmission q a = Some e
                /\ e <> ErrRecordNotFound
       end.
Proof.
  split; [reflexivity|].
  intros firstCourse getSubmission courseID q.
  unfold GetLastSubmissionsWith.
  destruct (firstCourse courseID) as [[c cas]|e0]; [|now left].
  destruct (first_abort getSubmission q cas)
    as [Hall | (pre & a & post & e & -> & Hpre & Ha)].
  - rewrite (lastSubmissionsLoop_all getSubmission cas q [] Hall). simpl.
    exists c, cas. split; [reflexivity|]. split; [assumption|].
    split; [reflexivity | apply found_at_most_one].
  - rewrite (lastSubmissionsLoop_abort getSubmission pre a post e q []
               Hpre Ha).
    right. exists c, pre, a, post. split; [reflexivity|].
    split; [assumption|]. split; [assumption|].
    unfold aborts in Ha.
    destruct (lookupFor getSubmission q a) as [t | [|msg]];
      try discriminate. inversion Ha. discriminate.
Qed.

(** X14: after an upsert of a well-shaped submission that brings no
    identifier and whose references exist, [GetLastSubmissions] for a
    stored course that holds the submission's assignment, asked with the
    submission's owner, lists the stored row of the upsert: its identifier
    is the one handed back to the caller and it holds every non-zero field
    of the incoming submission. *)
Theorem CreateSubmission_then_GetLastSubmissions :
  forall (db : GormDB) (s : Submission.t) (courseID : N) (c : Course.t)
         (a : Assignment.t),
    wellShaped s -> referencesExist db s ->
    Submission.ID s = 0 -> identifiersSet db ->
    In c (courses db) -> Course.ID c = courseID ->
    In a (assignments db) -> Assignment.CourseID a = courseID ->
    Assignment.ID a = Submission.AssignmentID s ->
    exists db' r rs l,
      CreateSubmission db s
      = (db', Submission.setID s (Submission.ID r), None)
      /\ GetLastSubmissions db' courseID (ownerQuery s) = Ok l
      /\ In (r, rs) l
      /\ Submission.matches s r = true.
Proof.
  intros db s courseID c a Hshape Hrefs Hs0 Hset Hc Hcid Ha Hacid Haid.
  destruct (CreateSubmission_lookup db s Hshape Hrefs Hs0 Hset)
    as (db' & r & HC & HL & Hm & _ & _ & _ & _ & Hcourses & Hasg).
  exists db', r.
  exists (filter (fun rv => Review.SubmissionID rv =? Submission.ID r)
                 (reviews db')).
  rewrite GetLastSubmissions_course, Hcourses, Hasg.
  destruct (find (fun c0 => Course.ID c0 =? courseID) (courses db))
    as [c0|] eqn:E.
  - eexists. split; [exact HC|]. split; [reflexivity|].
    split; [|exact Hm].
    apply in_flat_map. exists a. split.
    + apply filter_In. split; [assumption | now apply N.eqb_eq].
    + unfold found, lookupFor, GetSubmission.
      assert (Hq : Submission.setAssignmentID (ownerQuery s)
                     (Assignment.ID a) = key s)
        by (rewrite Haid; reflexivity).
      rewrite Hq, HL. now left.
  - exfalso. apply (find_none _ _ E) in Hc. apply N.eqb_neq in Hc.
    contradiction.
Qed.

Lemma CreateSubmission_then_GetLastSubmissions_witness :
  exists db' r rs l,
    CreateSubmission
      (mkDB [User.mk 1 "ann"] [] [Course.mk 1 "dat100"]
            [Assignment.mk 1 1 1]
            [Submission.mk 1 1 1 0 7 "" "build 1" false Status.NONE] [])
      (Submission.mk 0 1 1 0 9 "" "build 2" false Status.NONE)
    = (db',
       Submission.setID
         (Submission.mk 0 1 1 0 9 "" "build 2" false Status.NONE)
         (Submission.ID r), None)
    /\ GetLastSubmissions db' 1
         (ownerQuery (Submission.mk 0 1 1 0 9 "" "build 2" false
                        Status.NONE)) = Ok l
    /\ In (r, rs) l
    /\ Submission.matches
         (Submission.mk 0 1 1 0 9 "" "build 2" false Status.NONE) r = true.
Proof.
  apply (CreateSubmission_then_GetLastSubmissions
           (mkDB [User.mk 1 "ann"] [] [Course.mk 1 "dat100"]
                 [Assignment.mk 1 1 1]
                 [Submission.mk 1 1 1 0 7 "" "build 1" false Status.NONE] [])
           (Submission.mk 0 1 1 0 9 "" "build 2" false Status.NONE)
           1 (Course.mk 1 "dat100") (Assignment.mk 1 1 1)).
  - split; [simpl; lia | left; split; [simpl; lia | reflexivity]].
  - split; reflexivity.
  - reflexivity.
  - repeat constructor. discriminate.
  - left. reflexivity.
  - reflexivity.
  - left. reflexivity.
  - reflexivity.
  - reflexivity.
Defined.

(** ** The link builders, continued *)

Lemma pairing_sound submissions authorName a :
  soundEntry submissions authorName (pairing submissions authorName a).
Proof.
  unfold soundEntry, pairing. simpl. split; [reflexivity|].
  destruct (find (fun sub => ISubmission.assignmentid sub =? Assignment.ID a)
                 submissions) as [sub|] eqn:E.
  - apply find_some in E. destruct E as [Hin E]. now apply N.eqb_eq in E.
  - intros sub Hin. apply (find_none _ _ E) in Hin. now apply N.eqb_neq.
Qed.

Lemma getGroupCourseForTeacher_run provider group course assignments :
  Group.CourseID group = Course.ID course ->
  run (getGroupCourseForTeacher provider group course assignments)
  = (Some (IAssignmentLink.mk
             (Some (Enrollment.mk 0 None (Course.ID course) None
                      (Group.ID group) (Some group) 0))
             (map (pairing
                     (provider_getAllGroupLabInfos provider (Course.ID course)
                        (Group.ID group))
                     (Group.Name group))
                  assignments)
             course),
     match assignments with
     | [] => []
     | _ :: _ => [CallGetAllGroupLabInfos (Course.ID course) (Group.ID group)]
     end).
Proof.
  intros Hc. unfold getGroupCourseForTeacher.
  rewrite (proj2 (N.eqb_eq _ _) Hc).
  match goal with
  | |- run (await (fillLinksGroup ?p ?u ?l ?a) ?k) = _ =>
      change (run (await (fillLinksGroup p u l a) k))
        with (let '(x, log) := run (fillLinksGroup p u l a) in k x log);
      rewrite (fillLinksGroup_given p u l _ assignments eq_refl)
  end.
  now destruct assignments.
Qed.

(** X15: a group link exists only for the group's own course.  When the
    group's course reference differs from the course's identifier, both
    group builders resolve to no link and make no provider call.  When
    they agree, the teacher's builder resolves to a link for that course
    whose enrollment names the group and the course, with one entry per
    given assignment, in order, each a sound pairing under the group's
    name; the group's submissions are fetched once, and not at all for an
    empty assignment list. *)
Theorem getGroupCourseForTeacher_own_course :
  forall (provider : ICourseProvider) (group : Group.t) (course : Course.t)
         (assignments : list Assignment.t),
    (Group.CourseID group <> Course.ID course ->
     run (getGroupCourseForTeacher provider group course assignments)
     = (None, [])
     /\ run (getGroupCourse provider group course) = (None, []))
    /\ (Group.CourseID group = Course.ID course ->
        exists link log,
          run (getGroupCourseForTeacher provider group course assignments)
          = (Some link, log)
          /\ IAssignmentLink.course link = course
          /\ IAssignmentLink.link link
             = Some (Enrollment.mk 0 None (Course.ID course) None
                       (Group.ID group) (Some group) 0)
          /\ map IStudentSubmission.assignment
                 (IAssignmentLink.assignments link) = assignments
          /\ Forall (soundEntry
                       (provider_getAllGroupLabInfos provider
                          (Course.ID course) (Group.ID group))
                       (Group.Name group))
                    (IAssignmentLink.assignments link)
          /\ log = match assignments with
                   | [] => []
                   | _ :: _ => [CallGetAllGroupLabInfos (Course.ID course)
                                                        (Group.ID group)]
                   end).
Proof.
  intros provider group course assignments. split.
  - intros Hne. unfold getGroupCourseForTeacher, getGroupCourse.
    rewrite (proj2 (N.eqb_neq _ _) Hne). split; reflexivity.
  - intros Hc. rewrite (getGroupCourseForTeacher_run _ _ _ _ Hc).
    eexists. eexists. split; [reflexivity|]. simpl.
    split; [reflexivity|]. split; [reflexivity|]. split; [|split].
    + rewrite map_map. simpl. apply map_id.
    + apply Forall_forall. intros e He. apply in_map_iff in He.
      destruct He as (a & <- & _). apply pairing_sound.
    + reflexivity.
Qed.

Lemma getGroupCourseForTeacher_own_course_witness :
  run (getGroupCourseForTeacher
         (mkProvider (fun _ => []) (fun _ _ => []) (fun _ _ => []))
         (Group.mk 3 "team" 2) (Course.mk 1 "dat100")
         [Assignment.mk 1 1 1])
  = (None, [])
  /\ run (getGroupCourse
            (mkProvider (fun _ => []) (fun _ _ => []) (fun _ _ => []))
            (Group.mk 3 "team" 2) (Course.mk 1 "dat100"))
     = (None, []).
Proof.
  apply (proj1 (getGroupCourseForTeacher_own_course
                  (mkProvider (fun _ => []) (fun _ _ => []) (fun _ _ => []))
                  (Group.mk 3 "team" 2) (Course.mk 1 "dat100")
                  [Assignment.mk 1 1 1])).
  discriminate.
Defined.

(** X16: [fillLinks] called without an assignment list asks the provider
    for the course's assignments and pushes one entry per assignment, in
    the provider's order, each a sound pairing under the student's name,
    after the entries the link already had; the submissions are fetched
    after the assignments, and only when there are assignments.  A link
    object without enrollment is handed back as it is, with no call. *)
Theorem fillLinks_fetches_assignments :
  forall (provider : ICourseProvider) (student : User.t)
         (l : IAssignmentLink.t),
    (forall e, IAssignmentLink.link l = Some e ->
       exists entries,
         run (fillLinks provider student l None)
         = (IAssignmentLink.mk (IAssignmentLink.link l)
              (IAssignmentLink.assignments l ++ entries)
              (IAssignmentLink.course l),
            linkCalls provider (User.ID student) (IAssignmentLink.course l))
         /\ map IStudentSubmission.assignment entries
            = provider_getAssignments provider
                (Course.ID (IAssignmentLink.course l))
         /\ Forall (soundEntry
                      (provider_getAllLabInfos provider
                         (Course.ID (IAssignmentLink.course l))
                         (User.ID student))
                      (User.Name student)) entries)
    /\ (IAssignmentLink.link l = None ->
        forall assignments,
          run (fillLinks provider student l assignments) = (l, [])).
Proof.
  intros provider student l. split.
  - intros e Hl. eexists. unfold run.
    rewrite (fillLinks_omitted provider student l e [] Hl).
    split; [reflexivity|]. split.
    + rewrite map_map. simpl. apply map_id.
    + apply Forall_forall. intros x Hx. apply in_map_iff in Hx.
      destruct Hx as (a & <- & _). apply pairing_sound.
  - intros Hl assignments. unfold run, fillLinks. now rewrite Hl.
Qed.

Lemma fillLinks_fetches_assignments_witness :
  exists entries,
    run (fillLinks
           (mkProvider (fun _ => [Assignment.mk 1 1 1])
              (fun _ _ => [ISubmission.mk 11 4 0 1 80]) (fun _ _ => []))
           (User.mk 4 "eve")
           (IAssignmentLink.mk (Some Enrollment.zero) []
              (Course.mk 1 "dat100"))
           None)
    = (IAssignmentLink.mk (Some Enrollment.zero) ([] ++ entries)
         (Course.mk 1 "dat100"),
       linkCalls
         (mkProvider (fun _ => [Assignment.mk 1 1 1])
            (fun _ _ => [ISubmission.mk 11 4 0 1 80]) (fun _ _ => []))
         4 (Course.mk 1 "dat100"))
    /\ map IStudentSubmission.assignment entries = [Assignment.mk 1 1 1]
    /\ Forall (soundEntry [ISubmission.mk 11 4 0 1 80] "eve") entries.
Proof.
  apply (proj1 (fillLinks_fetches_assignments
                  (mkProvider (fun _ => [Assignment.mk 1 1 1])
                     (fun _ _ => [ISubmission.mk 11 4 0 1 80])
                     (fun _ _ => []))
                  (User.mk 4 "eve")
                  (IAssignmentLink.mk (Some Enrollment.zero) []
                     (Course.mk 1 "dat100")))
               Enrollment.zero).
  reflexivity.
Defined.

Lemma pairing_assignments submissions authorName assignments :
  map IStudentSubmission.assignment
      (map (pairing submissions authorName) assignments) = assignments.
Proof.
  induction assignments as [|a assignments IH]; simpl; [reflexivity|].
  now rewrite IH.
Qed.

Lemma pairing_all_sound submissions authorName assignments :
  Forall (soundEntry submissions authorName)
         (map (pairing submissions authorName) assignments).
Proof.
  apply Forall_forall. intros x Hx. apply in_map_iff in Hx.
  destruct Hx as (a & <- & _). apply pairing_sound.
Qed.

(** X17: for any assignment list, the teacher's link of a student carries
    a fresh enrollment with the student's identifier, the student, the
    course's identifier, the course and the status of the student's own
    enrollment; its entries are the given assignments in order, each
    soundly paired with the student's batch under the student's name. *)
Theorem getStudentCourseForTeacher_entries :
  forall (provider : ICourseProvider) (student : IUserRelation.t)
         (course : Course.t) (assignments : list Assignment.t),
    exists link,
      fst (run (getStudentCourseForTeacher provider student course
                  assignments)) = Some link
      /\ IAssignmentLink.link link
         = Some (Enrollment.mk (User.ID (IUserRelation.user student))
                   (Some (IUserRelation.user student)) (Course.ID course)
                   (Some course) 0 None
                   (Enrollment.status (IUserRelation.link student)))
      /\ map IStudentSubmission.assignment
             (IAssignmentLink.assignments link) = assignments
      /\ Forall (soundEntry
                   (provider_getAllLabInfos provider (Course.ID course)
                      (User.ID (IUserRelation.user student)))
                   (User.Name (IUserRelation.user student)))
                (IAssignmentLink.assignments link).
Proof.
  intros provider student course assignments.
  rewrite getStudentCourseForTeacher_run.
  destruct assignments as [|a assignments].
  - eexists. split; [reflexivity|]. simpl.
    split; [reflexivity|]. split; [reflexivity | constructor].
  - eexists. split; [reflexivity|].
    cbn [IAssignmentLink.link IAssignmentLink.assignments].
    split; [reflexivity|].
    split; [apply pairing_assignments | apply pairing_all_sound].
Qed.

(** ** Enrollments *)

Lemma fillEach_run provider student links : forall log,
  (forall l, In l links -> IAssignmentLink.link l <> None) ->
  fillEach provider student links log
  = (map (filledLink provider student) links,
     log ++ flat_map (fun l => linkCalls provider (User.ID student)
                                 (IAssignmentLink.course l)) links).
Proof.
  induction links as [|l links IH]; intros log H; simpl.
  - unfold resolve. now rewrite app_nil_r.
  - destruct (IAssignmentLink.link l) as [e|] eqn:El;
      [|exfalso; apply (H l); [now left | exact El]].
    unfold await at 1.
    rewrite (fillLinks_omitted provider student l e log El).
    unfold await at 1. rewrite IH by (intros; apply H; now right).
    unfold resolve, filledLink. now rewrite <- app_assoc.
Qed.

Lemma emptyLink_present ele l :
  In l (emptyLink ele) ->
  IAssignmentLink.link l = Some ele
  /\ IAssignmentLink.assignments l = []
  /\ Enrollment.course ele = Some (IAssignmentLink.course l).
Proof.
  unfold emptyLink. destruct (Enrollment.course ele) as [crs|];
    [|intros []].
  intros [<- | []]. auto.
Qed.

Lemma emptyLinks_courses enrols :
  map IAssignmentLink.course (flat_map emptyLink enrols)
  = flat_map (fun ele => match Enrollment.course ele with
                         | Some crs => [crs]
                         | None => []
                         end) enrols.
Proof.
  induction enrols as [|ele enrols IH]; simpl; [reflexivity|].
  rewrite map_app, IH. unfold emptyLink.
  now destruct (Enrollment.course ele).
Qed.

Lemma flat_map_of_map {A B C : Type} (f : B -> list C) (g : A -> B) l :
  flat_map f (map g l) = flat_map (fun x => f (g x)) l.
Proof.
  induction l as [|x l IH]; simpl; [reflexivity|]. now rewrite IH.
Qed.

(** X18: [getStudentCourses] resolves to one link per enrollment that has
    a course, in the provider's order: the courses are those
    [getCoursesFor] lists for the same student and state, each link keeps
    its enrollment, and each link's entries are its course's assignments,
    soundly paired with the student's submissions.  For each link in turn
    the assignments are fetched, then the submissions when there are
    assignments. *)
Theorem getStudentCourses_links :
  forall (provider : ICourseProvider) (enrollments : IEnrollmentProvider)
         (student : User.t) (state : option (list N)),
    exists links,
      run (getStudentCourses provider enrollments student state)
      = (links,
         flat_map (linkCalls provider (User.ID student))
                  (fst (run (getCoursesFor enrollments student state))))
      /\ map IAssignmentLink.course links
         = fst (run (getCoursesFor enrollments student state))
      /\ map unfilled links
         = flat_map emptyLink
             (provider_getCoursesFor enrollments student state)
      /\ Forall (completeLink provider student) links.
Proof.
  intros provider enrollments student state.
  unfold getStudentCourses, getCoursesFor, run, resolve. simpl fst.
  set (enrols := provider_getCoursesFor enrollments student state).
  assert (Hpresent : forall l, In l (flat_map emptyLink enrols) ->
                               IAssignmentLink.link l <> None).
  { intros l Hl. apply in_flat_map in Hl. destruct Hl as (ele & _ & Hl).
    apply emptyLink_present in Hl. destruct Hl as [Hl _]. congruence. }
  assert (Hempty : forall l, In l (flat_map emptyLink enrols) ->
                             IAssignmentLink.assignments l = []).
  { intros l Hl. apply in_flat_map in Hl. destruct Hl as (ele & _ & Hl).
    now apply emptyLink_present in Hl. }
  rewrite (fillEach_run provider student _ [] Hpresent).
  eexists. split; [|split; [|split]].
  - f_equal. simpl. rewrite <- emptyLinks_courses.
    now rewrite flat_map_of_map.
  - rewrite map_map. simpl. apply emptyLinks_courses.
  - rewrite map_map. transitivity (map (fun l => l) (flat_map emptyLink enrols));
      [|apply map_id].
    apply map_ext_in. intros l Hl. unfold unfilled, filledLink. simpl.
    rewrite <- (Hempty l Hl). now destruct l.
  - apply Forall_forall. intros l' Hl'. apply in_map_iff in Hl'.
    destruct Hl' as (l & <- & Hl). unfold completeLink, filledLink. simpl.
    rewrite (Hempty l Hl). simpl. split.
    + rewrite map_map. simpl. apply map_id.
    + apply Forall_forall. intros x Hx. apply in_map_iff in Hx.
      destruct Hx as (a & <- & _). apply pairing_sound.
Qed.

(** X19: [getCoursesWithState] makes no call that fetches assignments or
    submissions and resolves to unfilled links, one per enrollment with a
    course, each holding that enrollment and its course; they are the
    links of [getStudentCourses] without their entries, and their courses
    are those [getCoursesFor] lists. *)
Theorem getCoursesWithState_unfilled :
  forall (provider : ICourseProvider) (enrollments : IEnrollmentProvider)
         (user : User.t),
    exists links,
      run (getCoursesWithState enrollments user) = (links, [])
      /\ Forall (fun l =>
                   IAssignmentLink.assignments l = []
                   /\ exists ele,
                        In ele (provider_getCoursesFor enrollments user None)
                        /\ IAssignmentLink.link l = Some ele
                        /\ Enrollment.course ele
                           = Some (IAssignmentLink.course l))
                links
      /\ map unfilled
             (fst (run (getStudentCourses provider enrollments user None)))
         = links
      /\ map IAssignmentLink.course links
         = fst (run (getCoursesFor enrollments user None)).
Proof.
  intros provider enrollments user.
  exists (flat_map emptyLink (provider_getCoursesFor enrollments user None)).
  split; [reflexivity|]. split; [|split].
  - apply Forall_forall. intros l Hl. apply in_flat_map in Hl.
    destruct Hl as (ele & Hele & Hl). apply emptyLink_present in Hl.
    destruct Hl as (H1 & H2 & H3). split; [assumption|]. now exists ele.
  - unfold getStudentCourses, run.
    set (enrols := provider_getCoursesFor enrollments user None).
    assert (Hin : forall l, In l (flat_map emptyLink enrols) ->
                            IAssignmentLink.link l <> None
                            /\ IAssignmentLink.assignments l = []).
    { intros l Hl. apply in_flat_map in Hl. destruct Hl as (ele & _ & Hl).
      apply emptyLink_present in Hl. destruct Hl as (H1 & H2 & _).
      split; [congruence | assumption]. }
    rewrite (fillEach_run provider user _ []) by (intros; now apply Hin).
    simpl fst. rewrite map_map.
    transitivity (map (fun l => l) (flat_map emptyLink enrols));
      [|apply map_id].
    apply map_ext_in. intros l Hl. unfold unfilled, filledLink. simpl.
    rewrite <- (proj2 (Hin l Hl)). now destruct l.
  - apply emptyLinks_courses.
Qed.

(** X20: [getUsersForCourse] resolves to one relation per enrollment that
    has a user, in the provider's order; each relation pairs that user
    with the enrollment, whose course identifier has been set to the
    course's and whose other fields are as the provider gave them;
    enrollments without a user are left out. *)
Theorem getUsersForCourse_stamps_course :
  forall (enrollments : IEnrollmentProvider) (course : Course.t)
         (noGroupMemebers : option bool) (state : option (list N)),
    exists relations,
      run (getUsersForCourse enrollments course noGroupMemebers state)
      = (relations, [])
      /\ Forall (fun rel =>
                   Enrollment.courseid (IUserRelation.link rel)
                   = Course.ID course
                   /\ Enrollment.user (IUserRelation.link rel)
                      = Some (IUserRelation.user rel)
                   /\ exists ele,
                        In ele (provider_getUsersForCourse enrollments
                                  course noGroupMemebers state)
                        /\ IUserRelation.link rel
                           = setCourseid ele (Course.ID course))
                relations
      /\ map (fun rel => Some (IUserRelation.user rel)) relations
         = filter (fun u => match u with Some _ => true | None => false end)
                  (map Enrollment.user
                       (provider_getUsersForCourse enrollments course
                          noGroupMemebers state)).
Proof.
  intros enrollments course noGroupMemebers state.
  unfold getUsersForCourse, run, resolve.
  set (enrolls := provider_getUsersForCourse enrollments course
                    noGroupMemebers state).
  eexists. split; [reflexivity|]. split.
  - apply Forall_forall. intros rel Hrel. apply in_flat_map in Hrel.
    destruct Hrel as (ele & Hele & Hrel).
    destruct (Enrollment.user ele) as [usr|] eqn:Eu; [|destruct Hrel].
    destruct Hrel as [<- | []]. simpl.
    split; [reflexivity|]. split; [assumption|]. now exists ele.
  - induction enrolls as [|ele enrolls IH]; simpl; [reflexivity|].
    rewrite map_app, IH.
    now destruct (Enrollment.user ele).
Qed.
